(** * Booking and wallet consistency of the Bowar backend

    A shallow embedding of the booking / payment controllers
    ([booking_controller.ts], [bowar_transaction_controller.ts]) over an
    explicit relational store, with the database transactions the handlers
    open made explicit, and the properties the specification states about
    them.

    Conventions of the model.
    - A table is the list of its rows in storage order; [Model.find] and
      [query().where(..).first()] return the first matching row, an
      [UPDATE .. WHERE id = ?] rewrites the rows carrying that id, an
      [INSERT] appends a row under the next id of the sequence.
    - Money columns are [decimal(15,2)]; an amount is the integer number of
      hundredths it denotes, so JavaScript's [Number(x)] is the identity and
      [Number(x) || 0] as well (0 is the only falsy amount).
    - [DateTime.now()] is the request's arrival time [now], in milliseconds.
    - Every awaited call on the ORM, the transaction handle or the file
      store may throw; which of them do is given by a fault schedule, so the
      [try]/[catch]/[rollback] structure of the handlers is exercised. *)

From Stdlib Require Import ZArith List String Bool Lia.
From Stdlib Require Import DecimalString.
Import ListNotations.
Open Scope string_scope.
Open Scope Z_scope.

(** ** Data model *)

Inductive BookingStatus := BsPending | BsActive | BsCancelled | BsCompleted.
Inductive PaymentStatus := PsPending | PsPaid | PsRejected.
Inductive TxType := Topup | Payment | Refund.
Inductive TxStatus := TsPending | TsCompleted | TsFailed.
Inductive PcStatus := Available | Occupied | Maintenance.

Definition BookingStatus_eqb (a b : BookingStatus) : bool :=
  match a, b with
  | BsPending, BsPending | BsActive, BsActive
  | BsCancelled, BsCancelled | BsCompleted, BsCompleted => true
  | _, _ => false
  end.

Definition PaymentStatus_eqb (a b : PaymentStatus) : bool :=
  match a, b with
  | PsPending, PsPending | PsPaid, PsPaid | PsRejected, PsRejected => true
  | _, _ => false
  end.

Definition TxType_eqb (a b : TxType) : bool :=
  match a, b with
  | Topup, Topup | Payment, Payment | Refund, Refund => true
  | _, _ => false
  end.

Definition TxStatus_eqb (a b : TxStatus) : bool :=
  match a, b with
  | TsPending, TsPending | TsCompleted, TsCompleted | TsFailed, TsFailed => true
  | _, _ => false
  end.

Definition PcStatus_eqb (a b : PcStatus) : bool :=
  match a, b with
  | Available, Available | Occupied, Occupied | Maintenance, Maintenance => true
  | _, _ => false
  end.

(** [a === b] on a nullable integer column. *)
Definition optZ_eqb (a b : option Z) : bool :=
  match a, b with
  | Some x, Some y => x =? y
  | None, None => true
  | _, _ => false
  end.

Module User.
Record t := mk
  { id : Z; role : string; warnet_id : option Z; bowar_wallet : Z }.

End User.

Module Warnet.
Record t := mk
  { id : Z; name : string;
    regular_price_per_hour : Z; member_price_per_hour : Z }.

End Warnet.

Module Booking.
Record t := mk
  { id : Z; user_id : Z; warnet_id : Z; pc_number : Z;
    booking_date : string; booking_time : string; duration : Z;
    status : BookingStatus; payment_status : PaymentStatus;
    is_session_active : bool;
    price_per_hour : Z; total_price : Z; is_member_booking : bool;
    payment_proof_image : option string;
    payment_account_name : option string;
    payment_notes : option string;
    can_cancel_until : Z;
    approved_by : option Z; approved_at : option Z }.

Definition with_id (i : Z) (b : t) : t :=
  mk i (user_id b) (warnet_id b) (pc_number b) (booking_date b)
     (booking_time b) (duration b) (status b) (payment_status b)
     (is_session_active b) (price_per_hour b) (total_price b)
     (is_member_booking b) (payment_proof_image b) (payment_account_name b)
     (payment_notes b) (can_cancel_until b) (approved_by b) (approved_at b).

Definition with_status (s : BookingStatus) (b : t) : t :=
  mk (id b) (user_id b) (warnet_id b) (pc_number b) (booking_date b)
     (booking_time b) (duration b) s (payment_status b)
     (is_session_active b) (price_per_hour b) (total_price b)
     (is_member_booking b) (payment_proof_image b) (payment_account_name b)
     (payment_notes b) (can_cancel_until b) (approved_by b) (approved_at b).

Definition with_payment_status (p : PaymentStatus) (b : t) : t :=
  mk (id b) (user_id b) (warnet_id b) (pc_number b) (booking_date b)
     (booking_time b) (duration b) (status b) p
     (is_session_active b) (price_per_hour b) (total_price b)
     (is_member_booking b) (payment_proof_image b) (payment_account_name b)
     (payment_notes b) (can_cancel_until b) (approved_by b) (approved_at b).

Definition with_approval (by_ : Z) (at_ : Z) (b : t) : t :=
  mk (id b) (user_id b) (warnet_id b) (pc_number b) (booking_date b)
     (booking_time b) (duration b) (status b) (payment_status b)
     (is_session_active b) (price_per_hour b) (total_price b)
     (is_member_booking b) (payment_proof_image b) (payment_account_name b)
     (payment_notes b) (can_cancel_until b) (Some by_) (Some at_).

End Booking.

Module CafeWallet.
Record t := mk
  { id : Z; user_id : Z; warnet_id : Z; balance : Z;
    remaining_minutes : Z; is_active : bool; last_updated : option Z }.

Definition with_id (i : Z) (w : t) : t :=
  mk i (user_id w) (warnet_id w) (balance w) (remaining_minutes w)
     (is_active w) (last_updated w).

Definition with_balance (b : Z) (w : t) : t :=
  mk (id w) (user_id w) (warnet_id w) b (remaining_minutes w)
     (is_active w) (last_updated w).

End CafeWallet.

Module BowarTransaction.
Record t := mk
  { id : Z; user_id : Z; type : TxType; amount : Z; description : string;
    status : TxStatus; booking_id : option Z; warnet_id : option Z;
    proof_image : option string; sender_name : option string;
    approved_by : option Z; approved_at : option Z;
    rejection_note : option string }.

Definition with_id (i : Z) (x : t) : t :=
  mk i (user_id x) (type x) (amount x) (description x) (status x)
     (booking_id x) (warnet_id x) (proof_image x) (sender_name x)
     (approved_by x) (approved_at x) (rejection_note x).

Definition with_status (s : TxStatus) (x : t) : t :=
  mk (id x) (user_id x) (type x) (amount x) (description x) s
     (booking_id x) (warnet_id x) (proof_image x) (sender_name x)
     (approved_by x) (approved_at x) (rejection_note x).

Definition with_approval (by_ : Z) (at_ : Z) (x : t) : t :=
  mk (id x) (user_id x) (type x) (amount x) (description x) (status x)
     (booking_id x) (warnet_id x) (proof_image x) (sender_name x)
     (Some by_) (Some at_) (rejection_note x).

Definition with_rejection_note (n : string) (x : t) : t :=
  mk (id x) (user_id x) (type x) (amount x) (description x) (status x)
     (booking_id x) (warnet_id x) (proof_image x) (sender_name x)
     (approved_by x) (approved_at x) (Some n).

End BowarTransaction.

Module Pc.
Record t := mk
  { id : Z; warnet_id : Z; pc_number : Z; status : PcStatus;
    current_booking_id : option Z }.

Definition with_id (i : Z) (p : t) : t :=
  mk i (warnet_id p) (pc_number p) (status p) (current_booking_id p).

Definition merge (s : PcStatus) (cb : option Z) (p : t) : t :=
  mk (id p) (warnet_id p) (pc_number p) s cb.

End Pc.

(** The relational store. *)
Record Db := mkDb
  { users : list User.t;
    warnets : list Warnet.t;
    bookings : list Booking.t;
    cafe_wallets : list CafeWallet.t;
    bowar_transactions : list BowarTransaction.t;
    pcs : list Pc.t }.

Definition set_bookings (g : list Booking.t -> list Booking.t) (d : Db) : Db :=
  mkDb (users d) (warnets d) (g (bookings d)) (cafe_wallets d)
       (bowar_transactions d) (pcs d).

Definition set_cafe_wallets (g : list CafeWallet.t -> list CafeWallet.t)
  (d : Db) : Db :=
  mkDb (users d) (warnets d) (bookings d) (g (cafe_wallets d))
       (bowar_transactions d) (pcs d).

Definition set_bowar_transactions
  (g : list BowarTransaction.t -> list BowarTransaction.t) (d : Db) : Db :=
  mkDb (users d) (warnets d) (bookings d) (cafe_wallets d)
       (g (bowar_transactions d)) (pcs d).

Definition set_pcs (g : list Pc.t -> list Pc.t) (d : Db) : Db :=
  mkDb (users d) (warnets d) (bookings d) (cafe_wallets d)
       (bowar_transactions d) (g (pcs d)).

(** Row-level primitives shared by the tables. *)
Definition next_id {A} (id : A -> Z) (l : list A) : Z :=
  1 + fold_right (fun r m => Z.max (id r) m) 0 l.

Definition update_row {A} (id : A -> Z) (r : A) (l : list A) : list A :=
  map (fun x => if id x =? id r then r else x) l.

Definition insert_row {A} (r : A) (l : list A) : list A := l ++ [r].

(** ** Effects: faults, transactions, the trace of statements *)

Record Error := mkError
  { e_message : string; e_stack : string; e_code : string }.

(** The fault schedule: the error, if any, thrown by the [n]-th awaited
    call of the request. *)
Definition Faults := nat -> option Error.

Definition no_faults : Faults := fun _ => None.

(** A statement goes through the connection pool (auto-commit) or through
    the transaction handle [trx]. *)
Inductive Client := Direct | Trx.

Inductive Table := TBookings | TCafeWallets | TBowarTransactions | TPcs.

Inductive Event :=
| EvBegin
| EvCommit
| EvRollback
| EvWrite (c : Client) (t : Table).

(** [committed] is the store as every connection sees it; [working] is the
    view inside the open transaction, if one is open.  No handler mixes
    auto-commit writes with an open transaction, so a commit publishes the
    transaction's view. *)
Record St := mkSt
  { committed : Db; working : option Db; clock : nat; trace : list Event }.

Inductive Result (A : Type) :=
| Val (a : A)
| Exn (e : Error).

Arguments Val {A} a.
Arguments Exn {A} e.

Definition M (A : Type) := Faults -> St -> Result A * St.

Definition ret {A} (a : A) : M A := fun _ s => (Val a, s).

Definition bind {A B} (m : M A) (k : A -> M B) : M B :=
  fun f s =>
    match m f s with
    | (Val a, s') => k a f s'
    | (Exn e, s') => (Exn e, s')
    end.

Definition throw {A} (e : Error) : M A := fun _ s => (Exn e, s).

Definition try_catch {A} (m : M A) (h : Error -> M A) : M A :=
  fun f s =>
    match m f s with
    | (Val a, s') => (Val a, s')
    | (Exn e, s') => h e f s'
    end.

Declare Scope m_scope.
Delimit Scope m_scope with m.
Notation "x <- m ;; k" := (bind m (fun x => k))
  (at level 61, m at next level, right associativity) : m_scope.
Notation "m ;; k" := (bind m (fun _ => k))
  (at level 61, right associativity) : m_scope.
Open Scope m_scope.

(** One awaited call: the clock advances and the scheduled fault fires. *)
Definition await : M unit :=
  fun f s =>
    let s' := mkSt (committed s) (working s) (S (clock s)) (trace s) in
    match f (clock s) with
    | Some e => (Exn e, s')
    | None => (Val tt, s')
    end.

Definition emit (ev : Event) : M unit :=
  fun _ s =>
    (Val tt, mkSt (committed s) (working s) (clock s) (trace s ++ [ev])).

Definition view (c : Client) : M Db :=
  fun _ s =>
    (Val match c, working s with
         | Trx, Some w => w
         | _, _ => committed s
         end, s).

Definition modify (c : Client) (g : Db -> Db) : M unit :=
  fun _ s =>
    (Val tt,
     match c, working s with
     | Trx, Some w => mkSt (committed s) (Some (g w)) (clock s) (trace s)
     | _, _ => mkSt (g (committed s)) (working s) (clock s) (trace s)
     end).

(** A read-only statement. *)
Definition select {A} (c : Client) (q : Db -> A) : M A :=
  await ;; d <- view c ;; ret (q d).

(** A writing statement on table [t]. *)
Definition statement (c : Client) (t : Table) (g : Db -> Db) : M unit :=
  await ;; modify c g ;; emit (EvWrite c t).

(** The three moves of a transaction handle on the store. *)
Definition open_view : M unit :=
  fun _ s =>
    (Val tt, mkSt (committed s) (Some (committed s)) (clock s) (trace s)).

Definition publish_view : M unit :=
  fun _ s =>
    (Val tt,
     mkSt match working s with Some w => w | None => committed s end
          None (clock s) (trace s)).

Definition drop_view : M unit :=
  fun _ s => (Val tt, mkSt (committed s) None (clock s) (trace s)).

(** [db.connection().transaction()] *)
Definition transaction : M unit :=
  await ;; open_view ;; emit EvBegin.

(** [trx.commit()]: a commit that throws publishes nothing. *)
Definition commit : M unit :=
  await ;; publish_view ;; emit EvCommit.

(** [trx.rollback()]: the transaction's view is dropped; on a transaction
    that is already finished nothing is left to drop. *)
Definition rollback : M unit :=
  await ;; drop_view ;; emit EvRollback.

(** ** HTTP responses *)

Inductive Payload :=
| NoData
| BookingData (b : Booking.t)
| CancelData (b : Booking.t) (refunded : Z)
| BalanceData (required available : Z)
| CancelWindowData (can_cancel_until current_time : Z)
| TransactionData (x : BowarTransaction.t)
| TransactionBalanceData (x : BowarTransaction.t) (newBalance : Z).

(** The JSON body [{ message, error?, details?, data? }] with its status
    code; the per-field [errors] object of validation failures is not
    kept. *)
Module Response.
Record t := mk
  { status : Z; message : string;
    error : option string; details : option string; data : Payload }.

End Response.

Definition ok (msg : string) (d : Payload) : Response.t :=
  Response.mk 200 msg None None d.
Definition created (msg : string) (d : Payload) : Response.t :=
  Response.mk 201 msg None None d.
Definition badRequest (msg : string) (d : Payload) : Response.t :=
  Response.mk 400 msg None None d.
Definition unauthorized (msg : string) : Response.t :=
  Response.mk 401 msg None None NoData.
Definition forbidden (msg : string) : Response.t :=
  Response.mk 403 msg None None NoData.
Definition notFound (msg : string) : Response.t :=
  Response.mk 404 msg None None NoData.
Definition internalServerError (msg : string) (err det : option string)
  : Response.t :=
  Response.mk 500 msg err det NoData.

(** ** JavaScript values of request fields *)

Definition truthyZ (o : option Z) : bool :=
  match o with
  | Some z => negb (z =? 0)
  | None => false
  end.

Definition truthyS (o : option string) : bool :=
  match o with
  | Some s => negb (String.eqb s "")
  | None => false
  end.

Definition numZ (o : option Z) : Z :=
  match o with Some z => z | None => 0 end.

Definition strS (o : option string) : string :=
  match o with Some s => s | None => "" end.

(** [x || null] on a string field. *)
Definition or_null (o : option string) : option string :=
  if truthyS o then o else None.

(** Template-literal rendering of a number. *)
Definition show_Z (z : Z) : string := NilZero.string_of_int (Z.to_int z).

(** ** The ORM calls the controllers make *)

(** The rows the queries of the controllers select, table by table. *)
Definition user_by_id (l : list User.t) (i : Z) : option User.t :=
  find (fun u => User.id u =? i) l.

Definition warnet_by_id (l : list Warnet.t) (i : Z) : option Warnet.t :=
  find (fun w => Warnet.id w =? i) l.

Definition booking_by_id (l : list Booking.t) (i : Z) : option Booking.t :=
  find (fun b => Booking.id b =? i) l.

(** [.where('user_id', u).where('warnet_id', w).first()] *)
Definition wallet_of (l : list CafeWallet.t) (user_id warnet_id : Z)
  : option CafeWallet.t :=
  find (fun w => (CafeWallet.user_id w =? user_id)
                 && (CafeWallet.warnet_id w =? warnet_id)) l.

Definition transaction_by_id (l : list BowarTransaction.t) (i : Z)
  : option BowarTransaction.t :=
  find (fun x => BowarTransaction.id x =? i) l.

(** [.where('booking_id', id).where('type', ty).first()] *)
Definition transaction_of_booking (l : list BowarTransaction.t)
  (booking_id : Z) (ty : TxType) : option BowarTransaction.t :=
  find (fun x => optZ_eqb (BowarTransaction.booking_id x) (Some booking_id)
                 && TxType_eqb (BowarTransaction.type x) ty) l.

(** [.where('warnet_id', w).where('pc_number', n).first()] *)
Definition pc_of (l : list Pc.t) (warnet_id pc_number : Z) : option Pc.t :=
  find (fun p => (Pc.warnet_id p =? warnet_id)
                 && (Pc.pc_number p =? pc_number)) l.

(** [.where warnet_id .where pc_number .where current_booking_id .first()] *)
Definition pc_of_booking (l : list Pc.t) (warnet_id pc_number bid : Z)
  : option Pc.t :=
  find (fun p => (Pc.warnet_id p =? warnet_id)
                 && (Pc.pc_number p =? pc_number)
                 && optZ_eqb (Pc.current_booking_id p) (Some bid)) l.

Definition User_find (i : Z) : M (option User.t) :=
  select Direct (fun d => user_by_id (users d) i).

Definition Warnet_find (i : Z) : M (option Warnet.t) :=
  select Direct (fun d => warnet_by_id (warnets d) i).

Definition Booking_find (i : Z) : M (option Booking.t) :=
  select Direct (fun d => booking_by_id (bookings d) i).

Definition Booking_insert (c : Client) (b : Booking.t) : M Booking.t :=
  await ;;
  d <- view c ;;
  let b' := Booking.with_id (next_id Booking.id (bookings d)) b in
  modify c (set_bookings (insert_row b')) ;;
  emit (EvWrite c TBookings) ;;
  ret b'.

Definition Booking_update (c : Client) (b : Booking.t) : M unit :=
  statement c TBookings (set_bookings (update_row Booking.id b)).

Definition CafeWallet_first (c : Client) (user_id warnet_id : Z)
  : M (option CafeWallet.t) :=
  select c (fun d => wallet_of (cafe_wallets d) user_id warnet_id).

Definition CafeWallet_insert (c : Client) (w : CafeWallet.t)
  : M CafeWallet.t :=
  await ;;
  d <- view c ;;
  let w' := CafeWallet.with_id (next_id CafeWallet.id (cafe_wallets d)) w in
  modify c (set_cafe_wallets (insert_row w')) ;;
  emit (EvWrite c TCafeWallets) ;;
  ret w'.

Definition CafeWallet_update (c : Client) (w : CafeWallet.t) : M unit :=
  statement c TCafeWallets (set_cafe_wallets (update_row CafeWallet.id w)).

Definition BowarTransaction_find (i : Z) : M (option BowarTransaction.t) :=
  select Direct (fun d => transaction_by_id (bowar_transactions d) i).

Definition BowarTransaction_first (c : Client) (booking_id : Z) (ty : TxType)
  : M (option BowarTransaction.t) :=
  select c (fun d =>
    transaction_of_booking (bowar_transactions d) booking_id ty).

Definition BowarTransaction_insert (c : Client) (x : BowarTransaction.t)
  : M BowarTransaction.t :=
  await ;;
  d <- view c ;;
  let x' :=
    BowarTransaction.with_id
      (next_id BowarTransaction.id (bowar_transactions d)) x in
  modify c (set_bowar_transactions (insert_row x')) ;;
  emit (EvWrite c TBowarTransactions) ;;
  ret x'.

Definition BowarTransaction_update (c : Client) (x : BowarTransaction.t)
  : M unit :=
  statement c TBowarTransactions
    (set_bowar_transactions (update_row BowarTransaction.id x)).

Definition Pc_first (c : Client) (warnet_id pc_number : Z)
  : M (option Pc.t) :=
  select c (fun d => pc_of (pcs d) warnet_id pc_number).

Definition Pc_first_of_booking (c : Client) (warnet_id pc_number bid : Z)
  : M (option Pc.t) :=
  select c (fun d => pc_of_booking (pcs d) warnet_id pc_number bid).

Definition Pc_insert (c : Client) (p : Pc.t) : M Pc.t :=
  await ;;
  d <- view c ;;
  let p' := Pc.with_id (next_id Pc.id (pcs d)) p in
  modify c (set_pcs (insert_row p')) ;;
  emit (EvWrite c TPcs) ;;
  ret p'.

Definition Pc_update (c : Client) (p : Pc.t) : M unit :=
  statement c TPcs (set_pcs (update_row Pc.id p)).

(** [Pc.updateOrCreate(search, payload, { client })]: the first row matching
    the search is merged with the payload and saved, otherwise a row made of
    search and payload is inserted. *)
Definition Pc_updateOrCreate (c : Client) (warnet_id pc_number : Z)
  (s : PcStatus) (cb : option Z) : M unit :=
  o <- Pc_first c warnet_id pc_number ;;
  match o with
  | Some p => Pc_update c (Pc.merge s cb p)
  | None => _ <- Pc_insert c (Pc.mk 0 warnet_id pc_number s cb) ;; ret tt
  end.

(** Modelled from the spec: [Booking.canCancel()] lives in the Booking model,
    which is not among the sources.  The specification gives the rule: a
    cancellation is inside its window iff [now <= can_cancel_until]. *)
Definition canCancel (b : Booking.t) (now : Z) : bool :=
  now <=? Booking.can_cancel_until b.

(** ** [BookingController] *)

Module BookingController.

Record UploadedFile := mkUploadedFile
  { clientName : string; hasErrors : bool }.

Record CreateRequest := mkCreateRequest
  { warnetId : option Z;
    pcNumber : option Z;
    bookingDate : option string;
    bookingTime : option string;
    duration : option Z;
    paymentMethod : option string;
    paymentAccountName : option string;
    paymentNotes : option string;
    paymentProofImage : option UploadedFile }.

Definition insufficient_balance_message : string :=
  "Saldo Warnet ini tidak cukup. Silakan top up khusus di warnet ini.".

(** [isMemberBooking], [pricePerHour] and [totalPrice] of [create]. *)
Definition isMemberBooking (user : User.t) (warnetId : Z) : bool :=
  String.eqb (User.role user) "member"
  && optZ_eqb (User.warnet_id user) (Some warnetId).

Definition pricePerHour (user : User.t) (warnet : Warnet.t) (warnetId : Z)
  : Z :=
  if isMemberBooking user warnetId then Warnet.member_price_per_hour warnet
  else Warnet.regular_price_per_hour warnet.

Definition totalPrice (user : User.t) (warnet : Warnet.t)
  (warnetId duration : Z) : Z :=
  pricePerHour user warnet warnetId * duration.

(** The body of the inner [try] of [create]: everything between
    [db.connection().transaction()] and the [created] response. *)
Definition create_in_transaction (now : Z) (user : User.t) (warnet : Warnet.t)
  (warnetId pcNumber : Z) (bookingDate bookingTime : string) (duration : Z)
  (paymentMethod : string) (paymentAccountName paymentNotes : option string)
  (isMemberBooking : bool) (pricePerHour totalPrice : Z)
  (uploadedFilePath : option string) : M Response.t :=
  let bank := String.eqb paymentMethod "bank_transfer" in
  booking <- Booking_insert Trx
    (Booking.mk 0 (User.id user) warnetId pcNumber bookingDate bookingTime
       duration BsPending PsPending false pricePerHour totalPrice
       isMemberBooking
       (if bank then uploadedFilePath else None)
       (if bank then paymentAccountName else None)
       (if bank then or_null paymentNotes else None)
       (now + 2 * 60 * 1000) None None) ;;
  let finish (booking : Booking.t) : M Response.t :=
    (if PaymentStatus_eqb (Booking.payment_status booking) PsPaid
     then Pc_updateOrCreate Trx warnetId pcNumber Occupied
            (Some (Booking.id booking))
     else ret tt) ;;
    commit ;;
    await ;;
    ret (created "Booking created successfully" (BookingData booking)) in
  if String.eqb paymentMethod "dompet_bowar" then
    cafeWallet <- CafeWallet_first Trx (User.id user) warnetId ;;
    match cafeWallet with
    | None =>
        rollback ;;
        ret (badRequest insufficient_balance_message
               (BalanceData totalPrice 0))
    | Some cafeWallet =>
        if CafeWallet.balance cafeWallet <? totalPrice then
          rollback ;;
          ret (badRequest insufficient_balance_message
                 (BalanceData totalPrice (CafeWallet.balance cafeWallet)))
        else
          CafeWallet_update Trx
            (CafeWallet.with_balance
               (CafeWallet.balance cafeWallet - totalPrice) cafeWallet) ;;
          _ <- BowarTransaction_insert Trx
            (BowarTransaction.mk 0 (User.id user) Payment (- totalPrice)
               ("Payment for booking at " ++ Warnet.name warnet ++ " - PC #"
                  ++ show_Z pcNumber)%string
               TsCompleted (Some (Booking.id booking)) (Some warnetId)
               None None None None None) ;;
          let booking :=
            Booking.with_status BsActive
              (Booking.with_payment_status PsPaid booking) in
          Booking_update Trx booking ;;
          finish booking
    end
  else finish booking.

(** [POST /bookings] *)
Definition create (now : Z) (user : User.t) (req : CreateRequest)
  : M Response.t :=
  try_catch
    (if negb (truthyZ (warnetId req)) || negb (truthyZ (pcNumber req))
        || negb (truthyS (bookingDate req)) || negb (truthyS (bookingTime req))
        || negb (truthyZ (duration req)) || negb (truthyS (paymentMethod req))
     then ret (badRequest "Missing required fields" NoData)
     else
       let warnetId := numZ (warnetId req) in
       let pcNumber := numZ (pcNumber req) in
       let duration := numZ (duration req) in
       let paymentMethod := strS (paymentMethod req) in
       let bank := String.eqb paymentMethod "bank_transfer" in
       if bank && negb (truthyS (paymentAccountName req)) then
         ret (badRequest "Account name is required for bank transfer" NoData)
       else if bank && match paymentProofImage req with
                       | Some _ => false
                       | None => true
                       end then
         ret (badRequest "Payment proof image is required for bank transfer"
                NoData)
       else
         let isMemberBooking := isMemberBooking user warnetId in
         if isMemberBooking && (duration <=? 1) then
           ret (badRequest "Member booking must be more than 1 hour" NoData)
         else
           warnet <- Warnet_find warnetId ;;
           match warnet with
           | None => ret (notFound "Warnet not found")
           | Some warnet =>
               let pricePerHour := pricePerHour user warnet warnetId in
               let totalPrice := totalPrice user warnet warnetId duration in
               pc <- Pc_first Direct warnetId pcNumber ;;
               if match pc with
                  | Some pc => PcStatus_eqb (Pc.status pc) Maintenance
                  | None => false
                  end
               then ret (badRequest "PC is under maintenance" NoData)
               else
                 let in_transaction (uploadedFilePath : option string) :=
                   transaction ;;
                   try_catch
                     (create_in_transaction now user warnet warnetId pcNumber
                        (strS (bookingDate req)) (strS (bookingTime req))
                        duration paymentMethod (paymentAccountName req)
                        (paymentNotes req) isMemberBooking pricePerHour
                        totalPrice uploadedFilePath)
                     (fun e => rollback ;; throw e) in
                 match (if bank then paymentProofImage req else None) with
                 | Some file =>
                     let fileName :=
                       (show_Z now ++ "_" ++ clientName file)%string in
                     await ;;
                     if hasErrors file then
                       ret (badRequest "File upload failed" NoData)
                     else
                       in_transaction
                         (Some ("/uploads/payment-proofs/" ++ fileName)%string)
                 | None => in_transaction None
                 end
           end)
    (fun e =>
       ret (internalServerError "Failed to create booking"
              (Some (e_message e)) None)).

(** The body of the inner [try] of [cancel]. *)
Definition cancel_in_transaction (user : User.t) (booking : Booking.t)
  : M Response.t :=
  let booking := Booking.with_status BsCancelled booking in
  Booking_update Trx booking ;;
  (if PaymentStatus_eqb (Booking.payment_status booking) PsPaid then
     paymentTransaction <-
       BowarTransaction_first Direct (Booking.id booking) Payment ;;
     match paymentTransaction with
     | Some _ =>
         cafeWallet <-
           CafeWallet_first Trx (User.id user) (Booking.warnet_id booking) ;;
         match cafeWallet with
         | Some w =>
             CafeWallet_update Trx
               (CafeWallet.with_balance
                  (CafeWallet.balance w + Booking.total_price booking) w)
         | None =>
             _ <- CafeWallet_insert Trx
               (CafeWallet.mk 0 (User.id user) (Booking.warnet_id booking)
                  (0 + Booking.total_price booking) 0 false None) ;;
             ret tt
         end ;;
         _ <- BowarTransaction_insert Trx
           (BowarTransaction.mk 0 (User.id user) Refund
              (Booking.total_price booking)
              ("Refund for cancelled booking (Warnet ID: "
                 ++ show_Z (Booking.warnet_id booking) ++ ") - PC #"
                 ++ show_Z (Booking.pc_number booking))%string
              TsCompleted (Some (Booking.id booking))
              (Some (Booking.warnet_id booking)) None None None None None) ;;
         ret tt
     | None => ret tt
     end
   else ret tt) ;;
  pc <- Pc_first_of_booking Direct (Booking.warnet_id booking)
          (Booking.pc_number booking) (Booking.id booking) ;;
  match pc with
  | Some pc => Pc_update Trx (Pc.merge Available None pc)
  | None => ret tt
  end ;;
  commit ;;
  ret (ok "Booking cancelled successfully"
         (CancelData booking
            (if PaymentStatus_eqb (Booking.payment_status booking) PsPaid
             then Booking.total_price booking else 0))).

(** [POST /bookings/:id/cancel] *)
Definition cancel (now : Z) (user : User.t) (bookingId : Z) : M Response.t :=
  try_catch
    (booking <- Booking_find bookingId ;;
     match booking with
     | None => ret (notFound "Booking not found")
     | Some booking =>
         if negb (Booking.user_id booking =? User.id user) then
           ret (forbidden "You are not authorized to cancel this booking")
         else if BookingStatus_eqb (Booking.status booking) BsCancelled then
           ret (badRequest "Booking is already cancelled" NoData)
         else if BookingStatus_eqb (Booking.status booking) BsCompleted then
           ret (badRequest "Cannot cancel a completed booking" NoData)
         else if negb (canCancel booking now) then
           ret (badRequest "Cancel window has expired"
                  (CancelWindowData (Booking.can_cancel_until booking) now))
         else
           transaction ;;
           try_catch (cancel_in_transaction user booking)
             (fun e => rollback ;; throw e)
     end)
    (fun e =>
       ret (internalServerError "Failed to cancel booking"
              (Some (e_message e)) (Some (e_stack e)))).

End BookingController.

(** ** [OperatorBookingsController] *)

Module OperatorBookingsController.

(** [POST /operator/bookings/:id/approve] *)
Definition approve (now : Z) (operator : User.t) (bookingId : Z)
  : M Response.t :=
  try_catch
    (if negb (String.eqb (User.role operator) "operator") then
       ret (forbidden "Only operators can access this endpoint")
     else
       booking <- Booking_find bookingId ;;
       match booking with
       | None => ret (notFound "Booking not found")
       | Some booking =>
           if negb (optZ_eqb (Some (Booking.warnet_id booking))
                      (User.warnet_id operator)) then
             ret (forbidden "You can only approve bookings for your warnet")
           else if PaymentStatus_eqb (Booking.payment_status booking) PsPaid
           then ret (badRequest "Booking payment already approved" NoData)
           else if BookingStatus_eqb (Booking.status booking) BsCancelled
           then ret (badRequest "Cannot approve cancelled booking" NoData)
           else
             transaction ;;
             try_catch
               (let booking :=
                  Booking.with_approval (User.id operator) now
                    (Booking.with_status BsActive
                       (Booking.with_payment_status PsPaid booking)) in
                Booking_update Trx booking ;;
                Pc_updateOrCreate Trx (Booking.warnet_id booking)
                  (Booking.pc_number booking) Occupied
                  (Some (Booking.id booking)) ;;
                commit ;;
                await ;;
                await ;;
                ret (ok "Booking payment approved successfully"
                       (BookingData booking)))
               (fun e => rollback ;; throw e)
       end)
    (fun e =>
       ret (internalServerError "Failed to approve booking"
              (Some (e_message e)) None)).

(** [POST /operator/bookings/:id/reject] *)
Definition reject (operator : User.t) (bookingId : Z) : M Response.t :=
  try_catch
    (if negb (String.eqb (User.role operator) "operator") then
       ret (forbidden "Only operators can access this endpoint")
     else
       booking <- Booking_find bookingId ;;
       match booking with
       | None => ret (notFound "Booking not found")
       | Some booking =>
           if negb (optZ_eqb (Some (Booking.warnet_id booking))
                      (User.warnet_id operator)) then
             ret (forbidden "You can only reject bookings for your warnet")
           else if PaymentStatus_eqb (Booking.payment_status booking) PsPaid
           then ret (badRequest "Cannot reject already approved booking"
                       NoData)
           else if BookingStatus_eqb (Booking.status booking) BsCancelled
           then ret (badRequest "Booking already cancelled" NoData)
           else
             let booking :=
               Booking.with_status BsCancelled
                 (Booking.with_payment_status PsRejected booking) in
             Booking_update Direct booking ;;
             await ;;
             await ;;
             ret (ok "Booking payment rejected" (BookingData booking))
       end)
    (fun e =>
       ret (internalServerError "Failed to reject booking"
              (Some (e_message e)) None)).

End OperatorBookingsController.

(** ** [BowarTransactionController] *)

(** What the handlers read from the Node process: [process.env.NODE_ENV]
    and the host locale's [Number.prototype.toLocaleString]. *)
Record Process := mkProcess
  { NODE_ENV : string; toLocaleString : Z -> string }.

Module BowarTransactionController.

Record ProofFile := mkProofFile { isValid : bool; extname : string }.

Record TopupRequest := mkTopupRequest
  { topup_amount : option Z;
    topup_description : option string;
    senderName : option string;
    warnetId : option Z;
    proofImageFile : option ProofFile;
    proofImage : option string }.

Record AmountRequest := mkAmountRequest
  { bookingId : option Z; amount : option Z; description : option string }.

Definition development (host : Process) : bool :=
  String.eqb (NODE_ENV host) "development".

(** The [catch] block of [index] ([GET /bowar-transactions]). *)
Definition index_catch (host : Process) (e : Error) : Response.t :=
  if String.eqb (e_code e) "E_UNAUTHORIZED_ACCESS" then
    unauthorized "Silakan login terlebih dahulu"
  else
    internalServerError "Terjadi kesalahan pada server"
      (if development host then Some (e_message e) else None) None.

(** [POST /bowar-transactions/topup] *)
Definition topup (host : Process) (now : Z) (user : User.t)
  (req : TopupRequest) : M Response.t :=
  try_catch
    (await ;;
     let validated (finalProofImage : option string) : M Response.t :=
       if negb (truthyZ (topup_amount req)) || (numZ (topup_amount req) <=? 0)
       then ret (badRequest "Jumlah top up harus lebih dari 0" NoData)
       else if negb (truthyS finalProofImage) || negb (truthyS (senderName req))
               || negb (truthyZ (warnetId req))
       then ret (badRequest
                   "Bukti transfer, nama pengirim, dan warnet wajib diisi"
                   NoData)
       else
         x <- BowarTransaction_insert Direct
           (BowarTransaction.mk 0 (User.id user) Topup
              (numZ (topup_amount req))
              (if truthyS (topup_description req)
               then strS (topup_description req)
               else ("Top Up DompetBowar sebesar Rp "
                       ++ toLocaleString host (numZ (topup_amount req)))%string)
              TsPending None (warnetId req) finalProofImage (senderName req)
              None None None) ;;
         ret (created "Permintaan top up berhasil dibuat. Menunggu konfirmasi."
                (TransactionData x)) in
     match proofImageFile req with
     | Some file =>
         if negb (isValid file) then
           ret (badRequest
                  "Bukti transfer tidak valid atau terlalu besar (maks 5MB)"
                  NoData)
         else
           await ;;
           validated
             (Some ("/uploads/topups/" ++ show_Z now ++ "." ++ extname file)%string)
     | None => validated (proofImage req)
     end)
    (fun e =>
       ret (internalServerError
              (if String.eqb (e_message e) "" then
                 "Terjadi kesalahan saat membuat permintaan top up"
               else e_message e)
              (if development host then Some (e_message e) else None) None)).

(** [POST /bowar-transactions/payment] *)
Definition payment (user : User.t) (req : AmountRequest) : M Response.t :=
  try_catch
    (await ;;
     if negb (truthyZ (bookingId req)) || negb (truthyZ (amount req)) then
       ret (badRequest "bookingId dan amount wajib diisi" NoData)
     else
       let bookingId := numZ (bookingId req) in
       let amount := numZ (amount req) in
       booking <- Booking_find bookingId ;;
       match booking with
       | None => ret (notFound "Booking tidak ditemukan")
       | Some booking =>
           if negb (Booking.user_id booking =? User.id user) then
             ret (forbidden "Anda tidak memiliki akses ke booking ini")
           else
             cafeWallet <- CafeWallet_first Direct (User.id user)
                             (Booking.warnet_id booking) ;;
             match cafeWallet with
             | None =>
                 ret (badRequest
                        BookingController.insufficient_balance_message NoData)
             | Some cafeWallet =>
                 if CafeWallet.balance cafeWallet <? amount then
                   ret (badRequest
                          BookingController.insufficient_balance_message NoData)
                 else
                   CafeWallet_update Direct
                     (CafeWallet.with_balance
                        (CafeWallet.balance cafeWallet - amount) cafeWallet) ;;
                   x <- BowarTransaction_insert Direct
                     (BowarTransaction.mk 0 (User.id user) Payment (- amount)
                        (if truthyS (description req)
                         then strS (description req)
                         else ("Pembayaran booking #" ++ show_Z bookingId)%string)
                        TsCompleted (Some bookingId)
                        (Some (Booking.warnet_id booking))
                        None None None None None) ;;
                   ret (created "Pembayaran berhasil"
                          (TransactionBalanceData x (User.bowar_wallet user)))
             end
       end)
    (fun _ =>
       ret (internalServerError "Terjadi kesalahan saat memproses pembayaran"
              None None)).

(** [x || null] on an integer field. *)
Definition or_nullZ (z : Z) : option Z := if z =? 0 then None else Some z.

(** [POST /bowar-transactions/refund] *)
Definition refund (now : Z) (user : User.t) (req : AmountRequest)
  : M Response.t :=
  try_catch
    (await ;;
     if negb (truthyZ (amount req)) || (numZ (amount req) <=? 0) then
       ret (badRequest "Jumlah refund harus lebih dari 0" NoData)
     else
       let amount := numZ (amount req) in
       booking <- (if truthyZ (bookingId req)
                   then Booking_find (numZ (bookingId req))
                   else ret None) ;;
       found <- CafeWallet_first Direct (User.id user)
                  match booking with
                  | Some b => Booking.warnet_id b
                  | None => 0
                  end ;;
       cafeWallet <-
         match found, booking with
         | None, Some b =>
             w <- CafeWallet_insert Direct
                    (CafeWallet.mk 0 (User.id user) (Booking.warnet_id b) 0 0
                       false (Some now)) ;;
             ret (Some w)
         | _, _ => ret found
         end ;;
       match cafeWallet with
       | Some w =>
           CafeWallet_update Direct
             (CafeWallet.with_balance (CafeWallet.balance w + amount) w)
       | None => ret tt
       end ;;
       x <- BowarTransaction_insert Direct
         (BowarTransaction.mk 0 (User.id user) Refund amount
            (if truthyS (description req)
             then strS (description req)
             else ("Refund untuk booking #"
                     ++ (if truthyZ (bookingId req)
                         then show_Z (numZ (bookingId req)) else "N/A"))%string)
            TsCompleted
            (if truthyZ (bookingId req) then bookingId req else None)
            match booking with
            | Some b => or_nullZ (Booking.warnet_id b)
            | None => None
            end
            None None None None None) ;;
       ret (created "Refund berhasil diproses"
              (TransactionBalanceData x (User.bowar_wallet user))))
    (fun _ =>
       ret (internalServerError "Terjadi kesalahan saat memproses refund"
              None None)).

(** What the store answers to the insertion of a wallet whose
    [warnet_id], the venue half of the wallet's key, is null. *)
Definition null_warnet_error : Error :=
  mkError "null value in column warnet_id of relation cafe_wallets"
          "error: null value in column warnet_id" "23502".

(** [PATCH /bowar-transactions/:id/approve] *)
Definition approve (now : Z) (user : User.t) (id : Z) : M Response.t :=
  try_catch
    (await ;;
     if negb (String.eqb (User.role user) "operator") then
       ret (forbidden "Hanya operator yang dapat menyetujui top up")
     else
       transaction_ <- BowarTransaction_find id ;;
       match transaction_ with
       | None => ret (notFound "Transaksi tidak ditemukan")
       | Some x =>
           if negb (optZ_eqb (User.warnet_id user)
                      (BowarTransaction.warnet_id x)) then
             ret (forbidden
                    "Anda tidak memiliki akses untuk menyetujui transaksi warnet ini")
           else if negb (TxStatus_eqb (BowarTransaction.status x) TsPending)
           then ret (badRequest "Transaksi ini sudah diproses" NoData)
           else if negb (TxType_eqb (BowarTransaction.type x) Topup)
           then ret (badRequest "Hanya transaksi topup yang dapat disetujui"
                       NoData)
           else
             transactionOwner <- User_find (BowarTransaction.user_id x) ;;
             match transactionOwner with
             | None => ret (notFound "User pemilik transaksi tidak ditemukan")
             | Some transactionOwner =>
                 match BowarTransaction.warnet_id x with
                 | None => await ;; await ;; throw null_warnet_error
                 | Some warnet_id =>
                     found <- CafeWallet_first Direct
                                (User.id transactionOwner) warnet_id ;;
                     cafeWallet <-
                       match found with
                       | Some w => ret w
                       | None =>
                           CafeWallet_insert Direct
                             (CafeWallet.mk 0 (User.id transactionOwner)
                                warnet_id 0 0 false (Some now))
                       end ;;
                     let currentBalance := CafeWallet.balance cafeWallet in
                     let topupAmount := BowarTransaction.amount x in
                     let newBalance := currentBalance + topupAmount in
                     CafeWallet_update Direct
                       (CafeWallet.with_balance newBalance cafeWallet) ;;
                     let x :=
                       BowarTransaction.with_approval (User.id user) now
                         (BowarTransaction.with_status TsCompleted x) in
                     BowarTransaction_update Direct x ;;
                     ret (ok "Top up berhasil disetujui"
                            (TransactionBalanceData x newBalance))
                 end
             end
       end)
    (fun _ =>
       ret (internalServerError "Terjadi kesalahan saat menyetujui top up"
              None None)).

(** [PATCH /bowar-transactions/:id/reject] *)
Definition reject (user : User.t) (id : Z) (rejection_note : option string)
  : M Response.t :=
  try_catch
    (await ;;
     if negb (String.eqb (User.role user) "operator") then
       ret (forbidden "Hanya operator yang dapat menolak top up")
     else
       transaction_ <- BowarTransaction_find id ;;
       match transaction_ with
       | None => ret (notFound "Transaksi tidak ditemukan")
       | Some x =>
           if negb (optZ_eqb (User.warnet_id user)
                      (BowarTransaction.warnet_id x)) then
             ret (forbidden
                    "Anda tidak memiliki akses untuk menolak transaksi warnet ini")
           else if negb (TxStatus_eqb (BowarTransaction.status x) TsPending)
           then ret (badRequest "Transaksi ini sudah diproses" NoData)
           else
             let x := BowarTransaction.with_status TsFailed x in
             let x :=
               if truthyS rejection_note
               then BowarTransaction.with_rejection_note (strS rejection_note) x
               else x in
             BowarTransaction_update Direct x ;;
             ret (ok "Top up berhasil ditolak" (TransactionData x))
       end)
    (fun e =>
       if String.eqb (e_code e) "E_UNAUTHORIZED_ACCESS" then
         ret (unauthorized "Silakan login terlebih dahulu")
       else
         ret (internalServerError "Terjadi kesalahan saat menolak top up"
                None None)).

End BowarTransactionController.

(** ** Requests and their execution *)

Inductive Request :=
| PostBookings (now : Z) (user : User.t)
    (req : BookingController.CreateRequest)
| PostBookingsCancel (now : Z) (user : User.t) (id : Z)
| PostOperatorBookingsApprove (now : Z) (operator : User.t) (id : Z)
| PostOperatorBookingsReject (operator : User.t) (id : Z)
| PostTopup (now : Z) (user : User.t)
    (req : BowarTransactionController.TopupRequest)
| PostPayment (user : User.t)
    (req : BowarTransactionController.AmountRequest)
| PostRefund (now : Z) (user : User.t)
    (req : BowarTransactionController.AmountRequest)
| PatchApprove (now : Z) (user : User.t) (id : Z)
| PatchReject (user : User.t) (id : Z) (rejection_note : option string).

Definition handler (host : Process) (r : Request) : M Response.t :=
  match r with
  | PostBookings now user req => BookingController.create now user req
  | PostBookingsCancel now user id => BookingController.cancel now user id
  | PostOperatorBookingsApprove now operator id =>
      OperatorBookingsController.approve now operator id
  | PostOperatorBookingsReject operator id =>
      OperatorBookingsController.reject operator id
  | PostTopup now user req =>
      BowarTransactionController.topup host now user req
  | PostPayment user req => BowarTransactionController.payment user req
  | PostRefund now user req => BowarTransactionController.refund now user req
  | PatchApprove now user id => BowarTransactionController.approve now user id
  | PatchReject user id note => BowarTransactionController.reject user id note
  end.

(** The outcome of one request: the response sent, the store every later
    request sees, and the statements issued on the way. *)
Record Outcome := mkOutcome
  { response : Response.t; store : Db; events : list Event }.

Definition run (m : M Response.t) (f : Faults) (d : Db) : Outcome :=
  match m f (mkSt d None 0%nat []) with
  | (Val r, s) => mkOutcome r (committed s) (trace s)
  | (Exn e, s) =>
      mkOutcome (internalServerError (e_message e) None None)
                (committed s) (trace s)
  end.

Definition serve (host : Process) (f : Faults) (r : Request) (d : Db)
  : Outcome :=
  run (handler host r) f d.

(** * Specification

    The vocabulary of the statements below: what each request may leave in
    the store, the ways each handler ends, and the running example. *)

(** ** Runs and traces *)

(** [post m f s Q]: run from state [s] under the fault schedule [f], the
    computation [m] ends in a result and a state that satisfy [Q]. *)
Definition post {A} (m : M A) (f : Faults) (s : St)
  (Q : Result A -> St -> Prop) : Prop :=
  Q (fst (m f s)) (snd (m f s)).

(** A statement that did not bypass the transaction handle. *)
Definition transactional (ev : Event) : Prop :=
  match ev with
  | EvWrite Direct _ => False
  | _ => True
  end.

(** ** Creation *)

(** The table-level effect of [Pc.updateOrCreate]. *)
Definition upsert_pc (warnet_id pc_number : Z) (s : PcStatus)
  (cb : option Z) (l : list Pc.t) : list Pc.t :=
  match pc_of l warnet_id pc_number with
  | Some p => update_row Pc.id (Pc.merge s cb p) l
  | None =>
      insert_row (Pc.with_id (next_id Pc.id l)
                    (Pc.mk 0 warnet_id pc_number s cb)) l
  end.

(** The booking row [create] builds for its request. *)
Record Booked (user_id warnetId pcNumber : Z) (date time : string)
  (total now : Z) (d : Db) (b : Booking.t) : Prop := mkBooked
  { booked_id : Booking.id b = next_id Booking.id (bookings d);
    booked_user : Booking.user_id b = user_id;
    booked_warnet : Booking.warnet_id b = warnetId;
    booked_pc : Booking.pc_number b = pcNumber;
    booked_date : Booking.booking_date b = date;
    booked_time : Booking.booking_time b = time;
    booked_price : Booking.total_price b = total;
    booked_window : Booking.can_cancel_until b = now + 2 * 60 * 1000 }.

(** The four effects of a booking paid from the wallet: the debit, the
    completed payment record, the paid and active booking, the occupied
    PC. *)
Record WalletPayment (user_id warnetId pcNumber total : Z) (b : Booking.t)
  (d d' : Db) : Prop := mkWalletPayment
  { paid_users : users d' = users d;
    paid_warnets : warnets d' = warnets d;
    paid_wallet :
      exists w,
        wallet_of (cafe_wallets d) user_id warnetId = Some w
        /\ total <= CafeWallet.balance w
        /\ cafe_wallets d'
           = update_row CafeWallet.id
               (CafeWallet.with_balance (CafeWallet.balance w - total) w)
               (cafe_wallets d);
    paid_log :
      exists x,
        bowar_transactions d' = insert_row x (bowar_transactions d)
        /\ BowarTransaction.type x = Payment
        /\ BowarTransaction.amount x = - total
        /\ BowarTransaction.status x = TsCompleted
        /\ BowarTransaction.booking_id x = Some (Booking.id b)
        /\ BowarTransaction.user_id x = user_id
        /\ BowarTransaction.warnet_id x = Some warnetId;
    paid_booking : bookings d' = insert_row b (bookings d);
    paid_status : Booking.status b = BsActive;
    paid_payment_status : Booking.payment_status b = PsPaid;
    paid_pc :
      pcs d' = upsert_pc warnetId pcNumber Occupied (Some (Booking.id b))
                 (pcs d) }.

(** A booking that waits for the operator: one pending row, nothing else. *)
Record PendingBooking (b : Booking.t) (d d' : Db) : Prop := mkPendingBooking
  { pending_users : users d' = users d;
    pending_warnets : warnets d' = warnets d;
    pending_wallets : cafe_wallets d' = cafe_wallets d;
    pending_log : bowar_transactions d' = bowar_transactions d;
    pending_pcs : pcs d' = pcs d;
    pending_booking : bookings d' = insert_row b (bookings d);
    pending_status : Booking.status b = BsPending;
    pending_payment_status : Booking.payment_status b = PsPending }.

Section CreateInTransactionOutcome.

Variables (f : Faults) (now : Z) (user : User.t) (warnetId pcNumber : Z)
  (bookingDate bookingTime : string) (paymentMethod : string)
  (totalPrice : Z).

(** The ways the inner [try] of [create] ends, from a transaction opened on
    the store [d]. *)
Inductive create_in_transaction_ends (d : Db)
  : Result Response.t -> St -> Prop :=
| cit_thrown e k s' :
    f k = Some e -> committed s' = d ->
    create_in_transaction_ends d (Exn e) s'
| cit_insufficient available s' :
    paymentMethod = "dompet_bowar" ->
    match wallet_of (cafe_wallets d) (User.id user) warnetId with
    | Some w => CafeWallet.balance w < totalPrice
                /\ available = CafeWallet.balance w
    | None => available = 0
    end ->
    committed s' = d ->
    create_in_transaction_ends d
      (Val (badRequest BookingController.insufficient_balance_message
              (BalanceData totalPrice available))) s'
| cit_paid b r s' :
    paymentMethod = "dompet_bowar" ->
    Booked (User.id user) warnetId pcNumber bookingDate bookingTime
      totalPrice now d b ->
    WalletPayment (User.id user) warnetId pcNumber totalPrice b d
      (committed s') ->
    working s' = None ->
    (r = Val (created "Booking created successfully" (BookingData b))
     \/ exists e k, r = Exn e /\ f k = Some e) ->
    create_in_transaction_ends d r s'
| cit_pending b r s' :
    paymentMethod <> "dompet_bowar" ->
    Booked (User.id user) warnetId pcNumber bookingDate bookingTime
      totalPrice now d b ->
    PendingBooking b d (committed s') ->
    working s' = None ->
    (r = Val (created "Booking created successfully" (BookingData b))
     \/ exists e k, r = Exn e /\ f k = Some e) ->
    create_in_transaction_ends d r s'.

End CreateInTransactionOutcome.

Section CreateOutcome.

Variables (f : Faults) (now : Z) (user : User.t)
  (req : BookingController.CreateRequest) (d : Db).

Let warnetId := numZ (BookingController.warnetId req).
Let pcNumber := numZ (BookingController.pcNumber req).

(** The ways [POST /bookings] ends on the store [d]. *)
Inductive create_ends : Outcome -> Prop :=
| create_refused r evs :
    Response.status r = 400 ->
    Response.error r = None -> Response.details r = None ->
    create_ends (mkOutcome r d evs)
| create_no_warnet evs :
    warnet_by_id (warnets d) warnetId = None ->
    create_ends (mkOutcome (notFound "Warnet not found") d evs)
| create_failed e k evs :
    f k = Some e ->
    create_ends
      (mkOutcome (internalServerError "Failed to create booking"
                    (Some (e_message e)) None) d evs)
| create_committed warnet b r d' evs :
    warnet_by_id (warnets d) warnetId = Some warnet ->
    match pc_of (pcs d) warnetId pcNumber with
    | Some pc => Pc.status pc <> Maintenance
    | None => True
    end ->
    Booked (User.id user) warnetId pcNumber
      (strS (BookingController.bookingDate req))
      (strS (BookingController.bookingTime req))
      (BookingController.totalPrice user warnet warnetId
         (numZ (BookingController.duration req))) now d b ->
    (if String.eqb (strS (BookingController.paymentMethod req)) "dompet_bowar"
     then WalletPayment (User.id user) warnetId pcNumber
            (BookingController.totalPrice user warnet warnetId
               (numZ (BookingController.duration req))) b d d'
     else PendingBooking b d d') ->
    (r = created "Booking created successfully" (BookingData b)
     \/ exists e k,
          f k = Some e
          /\ r = internalServerError "Failed to create booking"
                   (Some (e_message e)) None) ->
    create_ends (mkOutcome r d' evs).

End CreateOutcome.

(** ** Cancellation *)

(** The wallet table after [cancel] credited the price of [b] back. *)
Definition refund_wallets (user_id : Z) (b : Booking.t)
  (l : list CafeWallet.t) : list CafeWallet.t :=
  match wallet_of l user_id (Booking.warnet_id b) with
  | Some w =>
      update_row CafeWallet.id
        (CafeWallet.with_balance
           (CafeWallet.balance w + Booking.total_price b) w) l
  | None =>
      insert_row
        (CafeWallet.with_id (next_id CafeWallet.id l)
           (CafeWallet.mk 0 user_id (Booking.warnet_id b)
              (0 + Booking.total_price b) 0 false None)) l
  end.

(** The PC table after [cancel] released the PC [b] was holding. *)
Definition release_pc (b : Booking.t) (l : list Pc.t) : list Pc.t :=
  match pc_of_booking l (Booking.warnet_id b) (Booking.pc_number b)
          (Booking.id b) with
  | Some pc => update_row Pc.id (Pc.merge Available None pc) l
  | None => l
  end.

(** [cancel] refunds a paid booking whose payment record it finds. *)
Definition refundable (b : Booking.t) (d : Db) : bool :=
  PaymentStatus_eqb (Booking.payment_status b) PsPaid
  && match transaction_of_booking (bowar_transactions d) (Booking.id b)
             Payment with
     | Some _ => true
     | None => false
     end.

Record Cancelled (user_id : Z) (b : Booking.t) (d d' : Db) : Prop :=
  mkCancelled
  { cancelled_users : users d' = users d;
    cancelled_warnets : warnets d' = warnets d;
    cancelled_booking :
      bookings d'
      = update_row Booking.id (Booking.with_status BsCancelled b)
          (bookings d);
    cancelled_refund :
      if refundable b d then
        cafe_wallets d' = refund_wallets user_id b (cafe_wallets d)
        /\ exists x,
             bowar_transactions d' = insert_row x (bowar_transactions d)
             /\ BowarTransaction.type x = Refund
             /\ BowarTransaction.amount x = Booking.total_price b
             /\ BowarTransaction.status x = TsCompleted
             /\ BowarTransaction.booking_id x = Some (Booking.id b)
             /\ BowarTransaction.user_id x = user_id
             /\ BowarTransaction.warnet_id x = Some (Booking.warnet_id b)
      else
        cafe_wallets d' = cafe_wallets d
        /\ bowar_transactions d' = bowar_transactions d;
    cancelled_pc : pcs d' = release_pc b (pcs d) }.

Section CancelOutcome.

Variables (f : Faults) (now : Z) (user : User.t) (bookingId : Z) (d : Db).

(** The ways [POST /bookings/:id/cancel] ends on the store [d]. *)
Inductive cancel_ends : Outcome -> Prop :=
| cancel_not_found evs :
    booking_by_id (bookings d) bookingId = None ->
    cancel_ends (mkOutcome (notFound "Booking not found") d evs)
| cancel_forbidden b evs :
    booking_by_id (bookings d) bookingId = Some b ->
    Booking.user_id b <> User.id user ->
    cancel_ends
      (mkOutcome (forbidden "You are not authorized to cancel this booking")
         d evs)
| cancel_refused b r evs :
    booking_by_id (bookings d) bookingId = Some b ->
    Booking.user_id b = User.id user ->
    Booking.status b = BsCancelled \/ Booking.status b = BsCompleted
    \/ canCancel b now = false ->
    Response.status r = 400 ->
    Response.error r = None -> Response.details r = None ->
    cancel_ends (mkOutcome r d evs)
| cancel_failed e k evs :
    f k = Some e ->
    cancel_ends
      (mkOutcome (internalServerError "Failed to cancel booking"
                    (Some (e_message e)) (Some (e_stack e))) d evs)
| cancel_done b refunded d' evs :
    booking_by_id (bookings d) bookingId = Some b ->
    Booking.user_id b = User.id user ->
    Booking.status b <> BsCancelled -> Booking.status b <> BsCompleted ->
    canCancel b now = true ->
    Cancelled (User.id user) b d d' ->
    refunded = (if PaymentStatus_eqb (Booking.payment_status b) PsPaid
                then Booking.total_price b else 0) ->
    cancel_ends
      (mkOutcome
         (ok "Booking cancelled successfully"
            (CancelData (Booking.with_status BsCancelled b) refunded))
         d' evs).

End CancelOutcome.

(** ** Approval and rejection by the operator *)

(** The store after an operator approved the payment of [b]. *)
Record Approved (operator_id now : Z) (b : Booking.t) (d d' : Db) : Prop :=
  mkApproved
  { approved_users : users d' = users d;
    approved_warnets : warnets d' = warnets d;
    approved_wallets : cafe_wallets d' = cafe_wallets d;
    approved_log : bowar_transactions d' = bowar_transactions d;
    approved_booking :
      bookings d'
      = update_row Booking.id
          (Booking.with_approval operator_id now
             (Booking.with_status BsActive
                (Booking.with_payment_status PsPaid b)))
          (bookings d);
    approved_pc :
      pcs d' = upsert_pc (Booking.warnet_id b) (Booking.pc_number b)
                 Occupied (Some (Booking.id b)) (pcs d) }.

(** The store after an operator rejected the payment of [b]. *)
Record Rejected (b : Booking.t) (d d' : Db) : Prop := mkRejected
  { rejected_users : users d' = users d;
    rejected_warnets : warnets d' = warnets d;
    rejected_wallets : cafe_wallets d' = cafe_wallets d;
    rejected_log : bowar_transactions d' = bowar_transactions d;
    rejected_pcs : pcs d' = pcs d;
    rejected_booking :
      bookings d'
      = update_row Booking.id
          (Booking.with_status BsCancelled
             (Booking.with_payment_status PsRejected b))
          (bookings d) }.

Section OperatorBookingsOutcome.

Variables (f : Faults) (now : Z) (operator : User.t) (bookingId : Z)
  (d : Db).

(** The ways [POST /operator/bookings/:id/approve] ends on the store [d]. *)
Inductive approve_ends : Outcome -> Prop :=
| approve_not_operator evs :
    User.role operator <> "operator" ->
    approve_ends
      (mkOutcome (forbidden "Only operators can access this endpoint") d evs)
| approve_not_found evs :
    booking_by_id (bookings d) bookingId = None ->
    approve_ends (mkOutcome (notFound "Booking not found") d evs)
| approve_other_venue b evs :
    booking_by_id (bookings d) bookingId = Some b ->
    Some (Booking.warnet_id b) <> User.warnet_id operator ->
    approve_ends
      (mkOutcome (forbidden "You can only approve bookings for your warnet")
         d evs)
| approve_refused b r evs :
    booking_by_id (bookings d) bookingId = Some b ->
    Some (Booking.warnet_id b) = User.warnet_id operator ->
    Booking.payment_status b = PsPaid \/ Booking.status b = BsCancelled ->
    Response.status r = 400 ->
    Response.error r = None -> Response.details r = None ->
    approve_ends (mkOutcome r d evs)
| approve_failed e k evs :
    f k = Some e ->
    approve_ends
      (mkOutcome (internalServerError "Failed to approve booking"
                    (Some (e_message e)) None) d evs)
| approve_done b r d' evs :
    User.role operator = "operator" ->
    booking_by_id (bookings d) bookingId = Some b ->
    Some (Booking.warnet_id b) = User.warnet_id operator ->
    Booking.payment_status b <> PsPaid ->
    Booking.status b <> BsCancelled ->
    Approved (User.id operator) now b d d' ->
    (r = ok "Booking payment approved successfully"
           (BookingData
              (Booking.with_approval (User.id operator) now
                 (Booking.with_status BsActive
                    (Booking.with_payment_status PsPaid b))))
     \/ exists e k,
          f k = Some e
          /\ r = internalServerError "Failed to approve booking"
                   (Some (e_message e)) None) ->
    approve_ends (mkOutcome r d' evs).

(** The ways [POST /operator/bookings/:id/reject] ends on the store [d]. *)
Inductive reject_ends : Outcome -> Prop :=
| reject_not_operator :
    User.role operator <> "operator" ->
    reject_ends
      (mkOutcome (forbidden "Only operators can access this endpoint") d [])
| reject_not_found :
    booking_by_id (bookings d) bookingId = None ->
    reject_ends (mkOutcome (notFound "Booking not found") d [])
| reject_other_venue b :
    booking_by_id (bookings d) bookingId = Some b ->
    Some (Booking.warnet_id b) <> User.warnet_id operator ->
    reject_ends
      (mkOutcome (forbidden "You can only reject bookings for your warnet")
         d [])
| reject_refused b r :
    booking_by_id (bookings d) bookingId = Some b ->
    Some (Booking.warnet_id b) = User.warnet_id operator ->
    Booking.payment_status b = PsPaid \/ Booking.status b = BsCancelled ->
    Response.status r = 400 ->
    Response.error r = None -> Response.details r = None ->
    reject_ends (mkOutcome r d [])
| reject_failed e k :
    f k = Some e ->
    reject_ends
      (mkOutcome (internalServerError "Failed to reject booking"
                    (Some (e_message e)) None) d [])
| reject_done b r d' :
    User.role operator = "operator" ->
    booking_by_id (bookings d) bookingId = Some b ->
    Some (Booking.warnet_id b) = User.warnet_id operator ->
    Booking.payment_status b <> PsPaid ->
    Booking.status b <> BsCancelled ->
    Rejected b d d' ->
    (r = ok "Booking payment rejected"
           (BookingData
              (Booking.with_status BsCancelled
                 (Booking.with_payment_status PsRejected b)))
     \/ exists e k,
          f k = Some e
          /\ r = internalServerError "Failed to reject booking"
                   (Some (e_message e)) None) ->
    reject_ends (mkOutcome r d' [EvWrite Direct TBookings]).

End OperatorBookingsOutcome.

(** ** Approval of a top-up *)

(** The wallet table after a top-up of [amount] was credited to the wallet
    of [(user_id, warnet_id)], created on the way if it was missing. *)
Definition credit_wallets (user_id warnet_id amount now : Z)
  (l : list CafeWallet.t) : list CafeWallet.t :=
  match wallet_of l user_id warnet_id with
  | Some w =>
      update_row CafeWallet.id
        (CafeWallet.with_balance (CafeWallet.balance w + amount) w) l
  | None =>
      insert_row
        (CafeWallet.with_balance (0 + amount)
           (CafeWallet.with_id (next_id CafeWallet.id l)
              (CafeWallet.mk 0 user_id warnet_id 0 0 false (Some now)))) l
  end.

(** The store after an operator approved the top-up [x]. *)
Record TopupApproved (operator_id now : Z) (x : BowarTransaction.t)
  (warnet_id : Z) (d d' : Db) : Prop := mkTopupApproved
  { credited_users : users d' = users d;
    credited_warnets : warnets d' = warnets d;
    credited_bookings : bookings d' = bookings d;
    credited_pcs : pcs d' = pcs d;
    credited_wallets :
      cafe_wallets d'
      = credit_wallets (BowarTransaction.user_id x) warnet_id
          (BowarTransaction.amount x) now (cafe_wallets d);
    credited_log :
      bowar_transactions d'
      = update_row BowarTransaction.id
          (BowarTransaction.with_approval operator_id now
             (BowarTransaction.with_status TsCompleted x))
          (bowar_transactions d) }.

Section TopupApprovalOutcome.

Variables (now : Z) (user : User.t) (id : Z) (d : Db).

(** What [approve] checks before it touches the wallet. *)
Definition approvable (x : BowarTransaction.t) (warnet_id : Z) : Prop :=
  User.role user = "operator"
  /\ transaction_by_id (bowar_transactions d) id = Some x
  /\ User.warnet_id user = BowarTransaction.warnet_id x
  /\ BowarTransaction.warnet_id x = Some warnet_id
  /\ BowarTransaction.status x = TsPending
  /\ BowarTransaction.type x = Topup.

(** The ways [PATCH /bowar-transactions/:id/approve] ends on the store
    [d]. *)
Inductive topup_approve_ends : Outcome -> Prop :=
| ta_declined r evs :
    Response.status r = 403 \/ Response.status r = 404
    \/ Response.status r = 400 ->
    topup_approve_ends (mkOutcome r d evs)
| ta_failed evs :
    topup_approve_ends
      (mkOutcome (internalServerError
                    "Terjadi kesalahan saat menyetujui top up" None None)
         d evs)
| ta_interrupted x warnet_id d' evs :
    approvable x warnet_id ->
    users d' = users d -> warnets d' = warnets d ->
    bookings d' = bookings d -> pcs d' = pcs d ->
    bowar_transactions d' = bowar_transactions d ->
    topup_approve_ends
      (mkOutcome (internalServerError
                    "Terjadi kesalahan saat menyetujui top up" None None)
         d' evs)
| ta_done x warnet_id r d' evs :
    approvable x warnet_id ->
    TopupApproved (User.id user) now x warnet_id d d' ->
    Response.status r = 200 ->
    topup_approve_ends (mkOutcome r d' evs).

End TopupApprovalOutcome.

(** The balance of the wallet of [(user_id, warnet_id)]; a user without a
    wallet at the venue holds nothing there. *)
Definition balance_of (l : list CafeWallet.t) (user_id warnet_id : Z) : Z :=
  match wallet_of l user_id warnet_id with
  | Some w => CafeWallet.balance w
  | None => 0
  end.

(** ** A running example

    The scenario of the specification: one venue renting at 10000 an hour,
    one customer holding 25000 in the venue's wallet, one operator of the
    venue and one of another venue. *)

Definition demo_host : Process := mkProcess "production" show_Z.

Definition demo_customer : User.t := User.mk 1 "user" None 0.
Definition demo_operator : User.t := User.mk 2 "operator" (Some 7) 0.
Definition demo_other_operator : User.t := User.mk 3 "operator" (Some 8) 0.

Definition demo_store : Db :=
  mkDb [demo_customer; demo_operator; demo_other_operator]
       [Warnet.mk 7 "Net" 10000 8000; Warnet.mk 8 "Kafe" 9000 7000]
       []
       [CafeWallet.mk 1 1 7 25000 0 true None]
       []
       [].

Definition demo_request (method : string) : BookingController.CreateRequest :=
  BookingController.mkCreateRequest (Some 7) (Some 3) (Some "2026-01-01")
    (Some "10:00") (Some 2) (Some method) None None None.

(** The store once the customer has booked PC 3 for two hours from the
    wallet, at time 1000. *)
Definition demo_booked : Db :=
  store (serve demo_host no_faults
           (PostBookings 1000 demo_customer (demo_request "dompet_bowar"))
           demo_store).

(** The store once the customer has booked by bank transfer instead; the
    booking waits for an operator. *)
Definition demo_waiting : Db :=
  store (serve demo_host no_faults
           (PostBookings 1000 demo_customer
              (BookingController.mkCreateRequest (Some 7) (Some 3)
                 (Some "2026-01-01") (Some "10:00") (Some 2)
                 (Some "bank_transfer") (Some "Alice") None
                 (Some (BookingController.mkUploadedFile "proof.png" false))))
           demo_store).

Definition demo_booking : Booking.t :=
  Booking.mk 1 1 7 3 "2026-01-01" "10:00" 2 BsActive PsPaid false 10000 20000
    false None None None 121000 None None.

(** The store once the customer has asked for a top-up of 50000 at venue 7,
    at time 1500. *)
Definition demo_topup : Db :=
  store (serve demo_host no_faults
           (PostTopup 1500 demo_customer
              (BowarTransactionController.mkTopupRequest (Some 50000) None
                 (Some "Alice") (Some 7) None (Some "proof")))
           demo_store).

(** ** The life cycle of a booking *)

(** The session status and the payment status of a booking. *)
Definition state_of (b : Booking.t) : BookingStatus * PaymentStatus :=
  (Booking.status b, Booking.payment_status b).

(** The moves of the life cycle: a payment (from the wallet at creation, or
    approved by the operator), a rejection by the operator, a
    cancellation. *)
Inductive lifecycle_step
  : BookingStatus * PaymentStatus -> BookingStatus * PaymentStatus -> Prop :=
| step_paid : lifecycle_step (BsPending, PsPending) (BsActive, PsPaid)
| step_rejected : lifecycle_step (BsPending, PsPending) (BsCancelled, PsRejected)
| step_cancelled s p :
    s <> BsCancelled -> s <> BsCompleted ->
    lifecycle_step (s, p) (BsCancelled, p).

Inductive lifecycle
  : BookingStatus * PaymentStatus -> BookingStatus * PaymentStatus -> Prop :=
| lifecycle_here s : lifecycle s s
| lifecycle_next s1 s2 s3 :
    lifecycle_step s1 s2 -> lifecycle s2 s3 -> lifecycle s1 s3.

(** The pairs of statuses the operations produce; a completed booking has
    been paid. *)
Definition consistent (b : Booking.t) : Prop :=
  match Booking.payment_status b with
  | PsPending => Booking.status b = BsPending \/ Booking.status b = BsCancelled
  | PsPaid => Booking.status b <> BsPending
  | PsRejected => Booking.status b = BsCancelled
  end.

(** One request keeps the store consistent and moves every booking along
    its life cycle. *)
Definition advances (d d' : Db) : Prop :=
  Forall consistent (bookings d')
  /\ forall i b,
       booking_by_id (bookings d) i = Some b ->
       exists b',
         booking_by_id (bookings d') i = Some b'
         /\ lifecycle (state_of b) (state_of b').

(** A sequence of requests, each with its own fault schedule. *)
Fixpoint serve_all (host : Process) (rs : list (Faults * Request)) (d : Db)
  : Db :=
  match rs with
  | [] => d
  | (f, r) :: rs => serve_all host rs (store (serve host f r d))
  end.

(** ** Properties in the words of the specification *)

(** The property as the specification words it: every write of a wallet
    goes through a database transaction that also writes the log. *)
Definition wallet_writes_in_transaction (evs : list Event) : Prop :=
  forall c,
    In (EvWrite c TCafeWallets) evs ->
    c = Trx /\ In (EvWrite Trx TBowarTransactions) evs.

(** An auto-committed statement. *)
Definition autocommitted (ev : Event) : Prop :=
  exists t, ev = EvWrite Direct t.

(** A database that fails at the first call. *)
Definition demo_outage : Faults :=
  fun n =>
    if Nat.eqb n 0
    then Some (mkError "connect ECONNREFUSED 127.0.0.1:5432"
                 "Error: connect ECONNREFUSED at TCPConnectWrap" "ECONNREFUSED")
    else None.

(** The property as the specification words it: outside development mode
    the body of a server error carries neither the raw error message nor a
    stack trace. *)
Definition hides_internals (host : Process) (r : Response.t) : Prop :=
  Response.status r = 500 ->
  NODE_ENV host <> "development" ->
  Response.error r = None /\ Response.details r = None.

(** The PC of [(warnet_id, pc_number)] has a record and it says
    maintenance. *)
Definition under_maintenance (d : Db) (warnet_id pc_number : Z) : Prop :=
  exists pc,
    pc_of (pcs d) warnet_id pc_number = Some pc /\ Pc.status pc = Maintenance.

(** * Verification *)

(** ** Rows and tables *)

Section Rows.

Context {A : Type} (id : A -> Z).

Lemma next_id_above (l : list A) (x : A) : In x l -> id x < next_id id l.
Proof.
  unfold next_id. induction l as [|y l IH]; cbn [fold_right In]; [tauto|].
  intros [->|Hx]; [lia|]. specialize (IH Hx). lia.
Qed.

Lemma find_by_id_none (l : list A) (i : Z) :
  (forall x, In x l -> id x <> i) -> find (fun x => id x =? i) l = None.
Proof.
  induction l as [|y l IH]; simpl; intros H; [reflexivity|].
  destruct (Z.eqb_spec (id y) i) as [E|_].
  - exfalso. apply (H y); auto.
  - apply IH. intros x Hx. apply H. auto.
Qed.

Lemma find_next_id (l : list A) :
  find (fun x => id x =? next_id id l) l = None.
Proof.
  apply find_by_id_none. intros x Hx. pose proof (next_id_above l x Hx). lia.
Qed.

Lemma update_row_absent (r : A) (l : list A) :
  (forall x, In x l -> id x <> id r) -> update_row id r l = l.
Proof.
  unfold update_row. induction l as [|y l IH]; simpl; intros H; [reflexivity|].
  destruct (Z.eqb_spec (id y) (id r)) as [E|_].
  - exfalso. apply (H y); auto.
  - f_equal. apply IH. intros x Hx. apply H. auto.
Qed.

Lemma update_row_insert_row (r r0 : A) (l : list A) :
  update_row id r (insert_row r0 l)
  = insert_row (if id r0 =? id r then r else r0) (update_row id r l).
Proof. unfold update_row, insert_row. rewrite map_app. reflexivity. Qed.

Lemma length_update_row (r : A) (l : list A) :
  List.length (update_row id r l) = List.length l.
Proof. unfold update_row. apply length_map. Qed.

Lemma find_insert_row (p : A -> bool) (r : A) (l : list A) :
  find p (insert_row r l)
  = match find p l with
    | Some x => Some x
    | None => if p r then Some r else None
    end.
Proof.
  unfold insert_row. induction l as [|y l IH]; simpl; [reflexivity|].
  destruct (p y); [reflexivity | exact IH].
Qed.

(** Saving a row the query selected: the query selects the saved row. *)
Lemma find_update_row_hit (p : A -> bool) (w r : A) (l : list A) :
  find p l = Some w -> id r = id w -> p r = true ->
  find p (update_row id r l) = Some r.
Proof.
  unfold update_row. intros Hf Hid Hp.
  induction l as [|y l IH]; simpl in *; [discriminate|].
  destruct (Z.eqb_spec (id y) (id r)) as [E|N].
  - rewrite Hp. reflexivity.
  - destruct (p y) eqn:Hy.
    + injection Hf as ->. congruence.
    + auto.
Qed.

(** Saving a row the query does not select, over rows it did not select
    before either. *)
Lemma find_update_row_miss (p : A -> bool) (r : A) (l : list A) :
  p r = false -> (forall x, In x l -> id x = id r -> p x = false) ->
  find p (update_row id r l) = find p l.
Proof.
  unfold update_row. intros Hp.
  induction l as [|y l IH]; simpl; intros H; [reflexivity|].
  destruct (Z.eqb_spec (id y) (id r)) as [E|N].
  - rewrite Hp, (H y) by auto. apply IH. intros x Hx. apply H. auto.
  - destruct (p y); [reflexivity|]. apply IH. intros x Hx. apply H. auto.
Qed.

Lemma find_by_id_update_row (i : Z) (r : A) (l : list A) :
  find (fun x => id x =? i) (update_row id r l)
  = match find (fun x => id x =? i) l with
    | Some x => Some (if i =? id r then r else x)
    | None => None
    end.
Proof.
  unfold update_row. induction l as [|y l IH]; simpl; [reflexivity|].
  destruct (Z.eqb_spec (id y) (id r)) as [E|N].
  - destruct (Z.eqb_spec (id r) i) as [E'|N'].
    + destruct (Z.eqb_spec (id y) i); [|congruence].
      destruct (Z.eqb_spec i (id r)); [reflexivity|congruence].
    + destruct (Z.eqb_spec (id y) i); [congruence|]. exact IH.
  - destruct (Z.eqb_spec (id y) i) as [E'|N']; [|exact IH].
    destruct (Z.eqb_spec i (id r)); [congruence|reflexivity].
Qed.

Lemma find_by_id_sound (i : Z) (l : list A) (x : A) :
  find (fun x => id x =? i) l = Some x -> id x = i.
Proof.
  intros H. apply find_some in H. destruct H as [_ H].
  apply Z.eqb_eq. exact H.
Qed.

End Rows.

(** ** A program logic for handlers *)

Section Rules.

Context {A B : Type}.

Lemma post_ret (a : A) f s Q : Q (Val a) s -> post (ret a) f s Q.
Proof. exact (fun H => H). Qed.

Lemma post_throw e f s (Q : Result A -> St -> Prop) :
  Q (Exn e) s -> post (throw e) f s Q.
Proof. exact (fun H => H). Qed.

Lemma post_bind (m : M A) (k : A -> M B) f s Q :
  post m f s (fun r s' =>
    match r with
    | Val a => post (k a) f s' Q
    | Exn e => Q (Exn e) s'
    end) ->
  post (bind m k) f s Q.
Proof. unfold post, bind. destruct (m f s) as [[a|e] s']; auto. Qed.

Lemma post_try_catch (m : M A) (h : Error -> M A) f s Q :
  post m f s (fun r s' =>
    match r with
    | Val a => Q (Val a) s'
    | Exn e => post (h e) f s' Q
    end) ->
  post (try_catch m h) f s Q.
Proof. unfold post, try_catch. destruct (m f s) as [[a|e] s']; auto. Qed.

Lemma post_step (m : M A) f s Q :
  Q (fst (m f s)) (snd (m f s)) -> post m f s Q.
Proof. exact (fun H => H). Qed.

Lemma post_weaken (m : M A) f s (R Q : Result A -> St -> Prop) :
  post m f s R -> (forall r s', R r s' -> Q r s') -> post m f s Q.
Proof. unfold post. auto. Qed.

End Rules.

Lemma post_await f s (Q : Result unit -> St -> Prop) :
  (forall e, f (clock s) = Some e ->
     Q (Exn e) (mkSt (committed s) (working s) (S (clock s)) (trace s))) ->
  (f (clock s) = None ->
     Q (Val tt) (mkSt (committed s) (working s) (S (clock s)) (trace s))) ->
  post await f s Q.
Proof. unfold post, await. destruct (f (clock s)); cbn; auto. Qed.

Lemma run_post (P : Outcome -> Prop) (m : M Response.t) f d :
  post m f (mkSt d None 0%nat [])
    (fun r s =>
       match r with
       | Val x => P (mkOutcome x (committed s) (trace s))
       | Exn e =>
           P (mkOutcome (internalServerError (e_message e) None None)
                (committed s) (trace s))
       end) ->
  P (run m f d).
Proof. unfold post, run. destruct (m f _) as [[x|e] s']; auto. Qed.

(** Symbolic execution: one rule per head of the program. *)

#[local] Arguments String.eqb : simpl never.
#[local] Arguments Z.eqb : simpl never.
#[local] Arguments Z.ltb : simpl never.
#[local] Arguments Z.leb : simpl never.

Ltac head_of t := lazymatch t with ?g _ => head_of g | _ => t end.

Ltac split_on b :=
  lazymatch b with
  | negb ?x => split_on x
  | (?x || _)%bool => split_on x
  | (?x && _)%bool => split_on x
  | _ => first [ match goal with H : b = _ |- _ => rewrite H end
               | destruct b eqn:? ]
  end.

Ltac st_simpl :=
  cbn beta iota zeta delta
    [committed working clock trace fst snd view modify emit
     open_view publish_view drop_view negb orb andb
     users warnets bookings cafe_wallets bowar_transactions pcs
     set_bookings set_cafe_wallets set_bowar_transactions set_pcs
     response store events].

Ltac post_step_with known :=
  lazymatch goal with
  | |- post (bind _ _) _ _ _ => apply post_bind
  | |- post (try_catch _ _) _ _ _ => apply post_try_catch
  | |- post (ret _) _ _ _ => apply post_ret
  | |- post (throw _) _ _ _ => apply post_throw
  | |- post await _ _ _ =>
      apply post_await; [intros ? ? | intros ?];
      match goal with H : _ (clock _) = _ |- _ => cbn [clock] in H end;
      try match goal with H : no_faults _ = Some _ |- _ => discriminate H end
  | |- post (view _) _ _ _ => apply post_step
  | |- post (modify _ _) _ _ _ => apply post_step
  | |- post (emit _) _ _ _ => apply post_step
  | |- post open_view _ _ _ => apply post_step
  | |- post publish_view _ _ _ => apply post_step
  | |- post drop_view _ _ _ => apply post_step
  | |- post (if ?b then _ else _) _ _ _ =>
      let b' := eval cbn in b in
      lazymatch b' with
      | true => change b with true
      | false => change b with false
      | _ => split_on b
      end
  | |- post (match ?x with _ => _ end) _ _ _ =>
      first [ match goal with H : x = _ |- _ => rewrite H end
            | destruct x eqn:? ]
  | |- post ?m _ _ _ => first [ known | let h := head_of m in unfold h ]
  end; st_simpl.

Ltac post_step := post_step_with fail.
Ltac exec := repeat post_step.

(** ** Decisions of the handlers, as propositions *)

Lemma BookingStatus_eqb_spec (a b : BookingStatus) :
  reflect (a = b) (BookingStatus_eqb a b).
Proof. destruct a, b; constructor; congruence. Qed.

Lemma PaymentStatus_eqb_spec (a b : PaymentStatus) :
  reflect (a = b) (PaymentStatus_eqb a b).
Proof. destruct a, b; constructor; congruence. Qed.

Lemma TxType_eqb_spec (a b : TxType) : reflect (a = b) (TxType_eqb a b).
Proof. destruct a, b; constructor; congruence. Qed.

Lemma TxStatus_eqb_spec (a b : TxStatus) : reflect (a = b) (TxStatus_eqb a b).
Proof. destruct a, b; constructor; congruence. Qed.

Lemma PcStatus_eqb_spec (a b : PcStatus) : reflect (a = b) (PcStatus_eqb a b).
Proof. destruct a, b; constructor; congruence. Qed.

Lemma optZ_eqb_spec (a b : option Z) : reflect (a = b) (optZ_eqb a b).
Proof.
  destruct a as [x|], b as [y|]; simpl; try (constructor; congruence).
  destruct (Z.eqb_spec x y); constructor; congruence.
Qed.

Lemma reflect_true {P : Prop} {b : bool} : reflect P b -> b = true -> P.
Proof. intros [] ?; [assumption | discriminate]. Qed.

Lemma reflect_false {P : Prop} {b : bool} : reflect P b -> b = false -> ~ P.
Proof. intros [] ?; [discriminate | assumption]. Qed.

Lemma reflect_iff_true {P : Prop} {b : bool} : reflect P b -> P -> b = true.
Proof. intros [] ?; [reflexivity | contradiction]. Qed.

Lemma reflect_iff_false {P : Prop} {b : bool} :
  reflect P b -> ~ P -> b = false.
Proof. intros [] ?; [contradiction | reflexivity]. Qed.

(** Boolean tests in the context become the facts they decide. *)
Ltac reflect_hyps :=
  repeat match goal with
    | H : BookingStatus_eqb _ _ = true |- _ =>
        apply (reflect_true (BookingStatus_eqb_spec _ _)) in H
    | H : BookingStatus_eqb _ _ = false |- _ =>
        apply (reflect_false (BookingStatus_eqb_spec _ _)) in H
    | H : PaymentStatus_eqb _ _ = true |- _ =>
        apply (reflect_true (PaymentStatus_eqb_spec _ _)) in H
    | H : PaymentStatus_eqb _ _ = false |- _ =>
        apply (reflect_false (PaymentStatus_eqb_spec _ _)) in H
    | H : TxType_eqb _ _ = true |- _ =>
        apply (reflect_true (TxType_eqb_spec _ _)) in H
    | H : TxType_eqb _ _ = false |- _ =>
        apply (reflect_false (TxType_eqb_spec _ _)) in H
    | H : TxStatus_eqb _ _ = true |- _ =>
        apply (reflect_true (TxStatus_eqb_spec _ _)) in H
    | H : TxStatus_eqb _ _ = false |- _ =>
        apply (reflect_false (TxStatus_eqb_spec _ _)) in H
    | H : PcStatus_eqb _ _ = true |- _ =>
        apply (reflect_true (PcStatus_eqb_spec _ _)) in H
    | H : PcStatus_eqb _ _ = false |- _ =>
        apply (reflect_false (PcStatus_eqb_spec _ _)) in H
    | H : optZ_eqb _ _ = true |- _ =>
        apply (reflect_true (optZ_eqb_spec _ _)) in H
    | H : optZ_eqb _ _ = false |- _ =>
        apply (reflect_false (optZ_eqb_spec _ _)) in H
    | H : (_ =? _)%string = true |- _ => apply String.eqb_eq in H
    | H : (_ =? _)%string = false |- _ => apply String.eqb_neq in H
    | H : (_ =? _) = true |- _ => apply Z.eqb_eq in H
    | H : (_ =? _) = false |- _ => apply Z.eqb_neq in H
    | H : (_ <? _) = true |- _ => apply Z.ltb_lt in H
    | H : (_ <? _) = false |- _ => apply Z.ltb_ge in H
    | H : (_ <=? _) = true |- _ => apply Z.leb_le in H
    | H : (_ <=? _) = false |- _ => apply Z.leb_gt in H
    end.

(** Fields of rows rebuilt by the handlers. *)
Ltac row_simpl :=
  cbn [Booking.id Booking.user_id Booking.warnet_id Booking.pc_number
       Booking.booking_date Booking.booking_time Booking.duration
       Booking.status Booking.payment_status Booking.total_price
       Booking.can_cancel_until Booking.approved_by Booking.approved_at
       Booking.with_id Booking.with_status Booking.with_payment_status
       Booking.with_approval
       CafeWallet.id CafeWallet.user_id CafeWallet.warnet_id
       CafeWallet.balance CafeWallet.with_id CafeWallet.with_balance
       BowarTransaction.id BowarTransaction.user_id BowarTransaction.type
       BowarTransaction.amount BowarTransaction.status
       BowarTransaction.booking_id BowarTransaction.warnet_id
       BowarTransaction.approved_by BowarTransaction.approved_at
       BowarTransaction.rejection_note
       BowarTransaction.with_id BowarTransaction.with_status
       BowarTransaction.with_approval BowarTransaction.with_rejection_note
       Pc.id Pc.warnet_id Pc.pc_number Pc.status Pc.current_booking_id
       Pc.with_id Pc.merge
       Response.status Response.message Response.error Response.details
       Response.data ok created badRequest unauthorized forbidden notFound
       internalServerError
       users warnets bookings cafe_wallets bowar_transactions pcs
       set_bookings set_cafe_wallets set_bowar_transactions set_pcs
       committed working clock trace response store events] in *.

(** The trace grew by statements sent through the transaction handle. *)
Ltac trace_ok :=
  repeat (apply Forall_app; split); auto; repeat constructor.

(** ** What a committed request leaves in the store *)

Lemma update_inserted_row {A} (id : A -> Z) (r r0 : A) (l : list A) :
  id r = next_id id l -> id r0 = id r ->
  update_row id r (insert_row r0 l) = insert_row r l.
Proof.
  intros Hr H0. rewrite update_row_insert_row, H0, Z.eqb_refl.
  rewrite update_row_absent; [reflexivity|].
  intros x Hx. pose proof (next_id_above id l x Hx). lia.
Qed.

Section CreateInTransaction.

Variables (f : Faults) (now : Z) (user : User.t) (warnet : Warnet.t)
  (warnetId pcNumber : Z) (bookingDate bookingTime : string) (duration : Z)
  (paymentMethod : string) (paymentAccountName paymentNotes : option string)
  (isMemberBooking : bool) (pricePerHour totalPrice : Z)
  (uploadedFilePath : option string).

#[local] Abbreviation create_in_transaction_ends :=
  (create_in_transaction_ends f now user warnetId pcNumber bookingDate
     bookingTime paymentMethod totalPrice).

Lemma create_in_transaction_spec (s : St) (d : Db) :
  committed s = d -> working s = Some d ->
  Forall transactional (trace s) ->
  post (BookingController.create_in_transaction now user warnet warnetId
          pcNumber bookingDate bookingTime duration paymentMethod
          paymentAccountName paymentNotes isMemberBooking pricePerHour
          totalPrice uploadedFilePath) f s
    (fun r s' =>
       create_in_transaction_ends d r s'
       /\ Forall transactional (trace s')).
Proof.
  destruct s as [c w n tr]. cbn [committed working trace].
  intros -> -> Htr.
  exec.
  all: split; [ | repeat (apply Forall_app; split); auto; repeat constructor ].
  all: try (eapply cit_thrown; solve [eauto]).
  all: repeat match goal with
         | H : (_ =? _)%string = true |- _ => apply String.eqb_eq in H
         | H : (_ =? _)%string = false |- _ => apply String.eqb_neq in H
         | H : (_ <? _) = true |- _ => apply Z.ltb_lt in H
         | H : (_ <? _) = false |- _ => apply Z.ltb_ge in H
         end.
  all: try (eapply cit_insufficient; eauto;
            match goal with H : wallet_of _ _ _ = _ |- _ => rewrite H end;
            solve [auto]).
  all: try match goal with
         | |- create_in_transaction_ends _ _ ?s =>
             match s with
             | context [update_row Booking.id ?row] =>
                 apply cit_paid with (b := row);
                 [ assumption
                 | constructor; reflexivity
                 | constructor; cbn [users warnets bookings cafe_wallets
                                     bowar_transactions pcs committed
                                     set_bookings set_cafe_wallets
                                     set_bowar_transactions set_pcs];
                   [ reflexivity
                   | reflexivity
                   | eexists; split; [eassumption | split; [assumption | reflexivity]]
                   | eexists; repeat split
                   | apply update_inserted_row; reflexivity
                   | reflexivity
                   | reflexivity
                   | unfold upsert_pc;
                     match goal with H : pc_of _ _ _ = _ |- _ => rewrite H end;
                     reflexivity ]
                 | reflexivity
                 | solve [eauto 6] ]
             end
         end.
  all: match goal with
         | |- create_in_transaction_ends _ _ ?s =>
             match s with
             | context [set_bookings (insert_row ?row)] =>
                 apply cit_pending with (b := row);
                 [ assumption
                 | constructor; reflexivity
                 | constructor; reflexivity
                 | reflexivity
                 | solve [eauto 6] ]
             end
         end.
Qed.

End CreateInTransaction.

Section Create.

Variables (f : Faults) (now : Z) (user : User.t)
  (req : BookingController.CreateRequest) (d : Db).

Let warnetId := numZ (BookingController.warnetId req).
Let pcNumber := numZ (BookingController.pcNumber req).

#[local] Abbreviation create_ends := (create_ends f now user req d).

Lemma create_spec :
  let o := run (BookingController.create now user req) f d in
  create_ends o /\ Forall transactional (events o).
Proof.
  apply run_post.
  repeat first
    [ post_step_with
        ltac:(eapply post_weaken;
              [ apply create_in_transaction_spec;
                [ reflexivity | reflexivity
                | cbn [trace]; solve [repeat constructor] ]
              | cbv beta; intros ? ? [[] ?] ])
    | match goal with
      | H : _ = Val _ \/ _ |- _ => destruct H as [-> | (? & ? & -> & ?)]
      end ].
  all: cbn [committed] in *.
  all: repeat match goal with H : committed _ = d |- _ => rewrite H end.
  all: (split;
        [ | repeat (apply Forall_app; split); auto; repeat constructor ]).
  all: try (apply create_refused; cbn; solve [auto]).
  all: try (apply create_no_warnet; assumption).
  all: try (eapply create_failed; solve [eauto]).
  all: try (eapply create_committed; eauto 6;
      unfold warnetId, pcNumber;
      try match goal with
        | H : match pc_of ?l ?w ?n with _ => _ end = false
          |- match pc_of ?l ?w ?n with _ => _ end =>
            destruct (pc_of l w n); [|exact I];
            exact (reflect_false (PcStatus_eqb_spec _ _) H)
        end;
      match goal with
      | H : _ = "dompet_bowar" |- _ => rewrite H, String.eqb_refl; assumption
      | H : _ <> "dompet_bowar" |- _ =>
          apply String.eqb_neq in H; rewrite H; assumption
      end).
Qed.

End Create.

Section Cancel.

Variables (f : Faults) (now : Z) (user : User.t) (bookingId : Z) (d : Db).

#[local] Abbreviation cancel_ends := (cancel_ends f now user bookingId d).

Lemma cancel_spec :
  let o := run (BookingController.cancel now user bookingId) f d in
  cancel_ends o /\ Forall transactional (events o).
Proof.
  apply run_post.
  exec.
  all: (split; [ | trace_ok ]).
  all: try (eapply cancel_failed; solve [eauto]).
  all: try (apply cancel_not_found; solve [auto]).
  all: row_simpl.
  all: try (eapply cancel_done;
            [ eassumption
            | reflect_hyps; assumption
            | reflect_hyps; assumption
            | reflect_hyps; assumption
            | assumption
            | constructor; row_simpl;
              [ reflexivity
              | reflexivity
              | reflexivity
              | unfold refundable, refund_wallets;
                repeat match goal with
                  | H : _ = _ |- _ => rewrite H
                  end;
                cbn [andb]; split; [reflexivity | ];
                try reflexivity; eexists; repeat split
              | unfold release_pc;
                repeat match goal with
                  | H : pc_of_booking _ _ _ _ = _ |- _ => rewrite H
                  end; reflexivity ]
            | match goal with
                | H : PaymentStatus_eqb _ _ = _ |- _ => rewrite H
              end; reflexivity ]).
  all: reflect_hyps.
  all: try (eapply cancel_refused;
            [ eassumption | assumption | tauto
            | reflexivity | reflexivity | reflexivity ]).
  all: eapply cancel_forbidden; eassumption.
Qed.

End Cancel.

Section OperatorBookings.

Variables (f : Faults) (now : Z) (operator : User.t) (bookingId : Z)
  (d : Db).

#[local] Abbreviation approve_ends :=
  (approve_ends f now operator bookingId d).
#[local] Abbreviation reject_ends := (reject_ends f operator bookingId d).

Lemma approve_spec :
  let o := run (OperatorBookingsController.approve now operator bookingId) f d in
  approve_ends o /\ Forall transactional (events o).
Proof.
  apply run_post.
  exec.
  all: (split; [ | trace_ok ]).
  all: try (eapply approve_failed; solve [eauto]).
  all: try (apply approve_not_found; solve [auto]).
  all: row_simpl.
  all: try (eapply approve_done;
            [ reflect_hyps; assumption
            | eassumption
            | reflect_hyps; assumption
            | reflect_hyps; assumption
            | reflect_hyps; assumption
            | constructor; row_simpl; try reflexivity;
              unfold upsert_pc;
              match goal with H : pc_of _ _ _ = _ |- _ => rewrite H end;
              reflexivity
            | solve [eauto 6] ]).
  all: reflect_hyps.
  all: try (eapply approve_refused;
            [ eassumption | assumption | tauto
            | reflexivity | reflexivity | reflexivity ]).
  all: try (eapply approve_other_venue; eassumption).
  all: apply approve_not_operator; assumption.
Qed.

Lemma reject_spec :
  reject_ends (run (OperatorBookingsController.reject operator bookingId) f d).
Proof.
  apply run_post.
  exec.
  all: try (eapply reject_failed; solve [eauto]).
  all: try (apply reject_not_found; solve [auto]).
  all: row_simpl.
  all: try (eapply reject_done;
            [ reflect_hyps; assumption
            | eassumption
            | reflect_hyps; assumption
            | reflect_hyps; assumption
            | reflect_hyps; assumption
            | constructor; reflexivity
            | solve [eauto 6] ]).
  all: reflect_hyps.
  all: try (eapply reject_refused;
            [ eassumption | assumption | tauto
            | reflexivity | reflexivity | reflexivity ]).
  all: try (eapply reject_other_venue; eassumption).
  all: apply reject_not_operator; assumption.
Qed.

End OperatorBookings.

Section TopupApproval.

Variables (f : Faults) (now : Z) (user : User.t) (id : Z) (d : Db).

#[local] Abbreviation topup_approve_ends :=
  (topup_approve_ends now user id d).

Lemma topup_approve_spec :
  topup_approve_ends
    (run (BowarTransactionController.approve now user id) f d).
Proof.
  apply run_post.
  exec.
  all: try (apply ta_declined; cbn; solve [auto]).
  all: try (apply ta_failed).
  all: row_simpl.
  all: reflect_hyps.
  all: match goal with
       | H : user_by_id _ _ = Some _ |- _ =>
           let E := fresh in
           pose proof (find_by_id_sound User.id _ _ _ H) as E;
           rewrite E in *
       end.
  all: match goal with
       | H1 : transaction_by_id _ _ = Some ?x,
         H2 : BowarTransaction.warnet_id ?x = Some ?w |- _ =>
           assert (approvable user id d x w)
             by (unfold approvable; repeat split; congruence)
       end.
  all: try (eapply ta_interrupted; [eassumption | reflexivity ..]).
  all: eapply ta_done; [ eassumption | | reflexivity ].
  all: constructor; row_simpl; try reflexivity.
  all: unfold credit_wallets;
       match goal with H : wallet_of _ _ _ = _ |- _ => rewrite H end;
       try reflexivity.
  apply update_inserted_row; reflexivity.
Qed.

End TopupApproval.

(** ** The running example, executed *)

Example demo_booked_wallet :
  option_map CafeWallet.balance (wallet_of (cafe_wallets demo_booked) 1 7)
  = Some 5000
  /\ option_map (fun b => (Booking.status b, Booking.payment_status b))
       (booking_by_id (bookings demo_booked) 1)
     = Some (BsActive, PsPaid).
Proof. split; reflexivity. Qed.

Example demo_cancelled :
  let o := serve demo_host no_faults (PostBookingsCancel 2000 demo_customer 1)
             demo_booked in
  Response.status (response o) = 200
  /\ option_map CafeWallet.balance (wallet_of (cafe_wallets (store o)) 1 7)
     = Some 25000
  /\ option_map Booking.status (booking_by_id (bookings (store o)) 1)
     = Some BsCancelled
  /\ option_map Pc.status (pc_of (pcs (store o)) 7 3) = Some Available.
Proof. repeat split; reflexivity. Qed.

(** ** The claims *)

(** C7. When an operator asks to approve the payment of a booking of a
    venue other than the operator's own, nothing changes in the store (the
    booking, the PC record, the wallets and the transaction log are as
    before), whatever fails on the way, and the answer is 403 Forbidden (500
    when the lookup of the booking itself fails). *)
Theorem operator_approve_other_venue_forbidden :
  forall (host : Process) (f : Faults) (now : Z) (operator : User.t)
         (id : Z) (d : Db) (b : Booking.t),
    booking_by_id (bookings d) id = Some b ->
    User.warnet_id operator <> Some (Booking.warnet_id b) ->
    let o := serve host f (PostOperatorBookingsApprove now operator id) d in
    store o = d
    /\ (Response.status (response o) = 403
        \/ Response.status (response o) = 500)
    /\ Response.status
         (response (serve host no_faults
                      (PostOperatorBookingsApprove now operator id) d))
       = 403.
Proof.
  intros host f now operator id d b Hb Hv. cbn zeta.
  assert (G : forall g,
             let o := serve host g (PostOperatorBookingsApprove now operator id) d in
             store o = d
             /\ (Response.status (response o) = 403
                 \/ (Response.status (response o) = 500
                     /\ exists k e, g k = Some e))).
  { intros g. cbn zeta. unfold serve. cbn [handler].
    destruct (approve_spec g now operator id d) as [E _].
    inversion E; subst; cbn [store response]; try congruence.
    - split; [reflexivity | left; reflexivity].
    - split; [reflexivity | left; reflexivity].
    - split; [reflexivity | right; split; [reflexivity | eauto]]. }
  split; [apply G | split].
  - destruct (G f) as [_ [?|[? _]]]; auto.
  - destruct (G no_faults) as [_ [?|[_ (k & e & Hk)]]]; [assumption|].
    discriminate Hk.
Qed.

Lemma operator_approve_other_venue_forbidden_witness :
  booking_by_id (bookings demo_waiting) 1
  = Some (Booking.mk 1 1 7 3 "2026-01-01" "10:00" 2 BsPending PsPending
            false 10000 20000 false
            (Some "/uploads/payment-proofs/1000_proof.png") (Some "Alice")
            None 121000 None None)
  /\ User.warnet_id demo_other_operator <> Some 7
  /\ store (serve demo_host no_faults
              (PostOperatorBookingsApprove 5000 demo_other_operator 1)
              demo_waiting) = demo_waiting.
Proof.
  split; [reflexivity | split; [discriminate | ]].
  apply (operator_approve_other_venue_forbidden demo_host no_faults 5000
           demo_other_operator 1 demo_waiting
           (Booking.mk 1 1 7 3 "2026-01-01" "10:00" 2 BsPending PsPending
              false 10000 20000 false
              (Some "/uploads/payment-proofs/1000_proof.png")
              (Some "Alice") None 121000 None None)).
  - reflexivity.
  - discriminate.
Defined.

(** The row a request finds under an id is the one a save of that id
    leaves there. *)
Lemma booking_by_id_saved (l : list Booking.t) (i : Z) (b b' : Booking.t) :
  booking_by_id l i = Some b -> Booking.id b' = Booking.id b ->
  booking_by_id (update_row Booking.id b' l) i = Some b'.
Proof.
  unfold booking_by_id. intros H E.
  rewrite find_by_id_update_row, H.
  apply find_by_id_sound in H. rewrite E, H, Z.eqb_refl. reflexivity.
Qed.

(** C4. A cancellation request on an existing booking, made by the user who
    owns it, is accepted (200, and the booking is stored as cancelled) if
    and only if the request arrives no later than [can_cancel_until] and
    the booking is neither cancelled nor completed; under failures of the
    database an acceptance still implies these conditions, and a request
    that violates them changes nothing.  A request by any other user
    changes nothing and is answered 403 Forbidden. *)
Theorem cancel_accepted_iff_in_window :
  forall (host : Process) (now : Z) (user : User.t) (id : Z) (d : Db)
         (b : Booking.t),
    booking_by_id (bookings d) id = Some b ->
    let in_window :=
      now <= Booking.can_cancel_until b
      /\ Booking.status b <> BsCancelled /\ Booking.status b <> BsCompleted in
    let cancel f := serve host f (PostBookingsCancel now user id) d in
    (Booking.user_id b = User.id user ->
       (Response.status (response (cancel no_faults)) = 200 <-> in_window)
       /\ (forall f,
             Response.status (response (cancel f)) = 200 ->
             in_window
             /\ booking_by_id (bookings (store (cancel f))) id
                = Some (Booking.with_status BsCancelled b))
       /\ (forall f, ~ in_window -> store (cancel f) = d))
    /\ (Booking.user_id b <> User.id user ->
          Response.status (response (cancel no_faults)) = 403
          /\ forall f,
               store (cancel f) = d
               /\ (Response.status (response (cancel f)) = 403
                   \/ Response.status (response (cancel f)) = 500)).
Proof.
  intros host now user id d b Hb in_window cancel.
  assert (W : canCancel b now = true <-> now <= Booking.can_cancel_until b)
    by (unfold canCancel; apply Z.leb_le).
  assert (S : forall f, cancel_ends f now user id d (cancel f))
    by (intros f; apply cancel_spec).
  split.
  - intros Ho.
    assert (A : forall f,
               Response.status (response (cancel f)) = 200 ->
               in_window
               /\ booking_by_id (bookings (store (cancel f))) id
                  = Some (Booking.with_status BsCancelled b)).
    { intros f. specialize (S f). inversion S; subst; cbn [response store];
        try (cbn; discriminate).
      - cbn. match goal with H : Response.status _ = 400 |- _ => rewrite H end.
        discriminate.
      - intros _. assert (b0 = b) by congruence. subst b0.
        split; [unfold in_window; tauto|].
        match goal with H : Cancelled _ _ _ _ |- _ => destruct H end.
        match goal with H : bookings _ = _ |- _ => rewrite H end.
        eapply booking_by_id_saved; [eassumption | reflexivity]. }
    split; [split|split].
    + intros H. apply (A no_faults H).
    + intros Hin. specialize (S no_faults).
      inversion S; subst; cbn [response]; try congruence.
      * assert (b0 = b) by congruence. subst b0.
        unfold in_window in Hin. exfalso.
        match goal with
        | H : _ \/ _ \/ canCancel _ _ = false |- _ =>
            destruct H as [?|[?|H]]; try tauto;
            rewrite (proj2 W) in H; [discriminate | tauto]
        end.
      * match goal with H : no_faults _ = Some _ |- _ => discriminate H end.
      * reflexivity.
    + exact A.
    + intros f Hnot. specialize (S f).
      inversion S; subst; cbn [store]; try reflexivity.
      assert (b0 = b) by congruence. subst b0.
      exfalso. apply Hnot. unfold in_window. tauto.
  - intros Hn.
    assert (B : forall f,
               store (cancel f) = d
               /\ (Response.status (response (cancel f)) = 403
                   \/ (Response.status (response (cancel f)) = 500
                       /\ exists k e, f k = Some e))).
    { intros f. specialize (S f).
      inversion S; subst; cbn [store response]; try congruence.
      - split; [reflexivity | left; reflexivity].
      - split; [reflexivity | right; split; [reflexivity | eauto]]. }
    split.
    + destruct (B no_faults) as [_ [?|[_ (k & e & Hk)]]]; [assumption|].
      discriminate Hk.
    + intros f. destruct (B f) as [? [?|[? _]]]; auto.
Qed.

Lemma cancel_accepted_iff_in_window_witness :
  booking_by_id (bookings demo_booked) 1
  = Some (Booking.mk 1 1 7 3 "2026-01-01" "10:00" 2 BsActive PsPaid false
            10000 20000 false None None None 121000 None None)
  /\ (Response.status
        (response (serve demo_host no_faults
                     (PostBookingsCancel 2000 demo_customer 1) demo_booked))
      = 200
      <-> 2000 <= 121000 /\ BsActive <> BsCancelled /\ BsActive <> BsCompleted).
Proof.
  split; [reflexivity|].
  apply (cancel_accepted_iff_in_window demo_host 2000 demo_customer 1
           demo_booked
           (Booking.mk 1 1 7 3 "2026-01-01" "10:00" 2 BsActive PsPaid false
              10000 20000 false None None None 121000 None None)
           eq_refl).
  reflexivity.
Defined.

(** The PC record [Pc.updateOrCreate] leaves for [(warnet_id, pc_number)]. *)
Lemma pc_of_upsert_pc (warnet_id pc_number : Z) (s : PcStatus)
  (cb : option Z) (l : list Pc.t) :
  exists p,
    pc_of (upsert_pc warnet_id pc_number s cb l) warnet_id pc_number = Some p
    /\ Pc.status p = s /\ Pc.current_booking_id p = cb.
Proof.
  unfold upsert_pc. destruct (pc_of l warnet_id pc_number) as [p0|] eqn:E.
  - exists (Pc.merge s cb p0). split; [|split; reflexivity].
    unfold pc_of in *. eapply find_update_row_hit; [exact E | reflexivity |].
    apply find_some in E. exact (proj2 E).
  - exists (Pc.with_id (next_id Pc.id l) (Pc.mk 0 warnet_id pc_number s cb)).
    split; [|split; reflexivity].
    unfold pc_of in *. rewrite find_insert_row, E. cbn.
    rewrite !Z.eqb_refl. reflexivity.
Qed.



(** The wallet a query selected is still the one it selects once its new
    balance is saved. *)
Lemma wallet_of_saved (l : list CafeWallet.t) (u v x : Z) (w : CafeWallet.t) :
  wallet_of l u v = Some w ->
  wallet_of (update_row CafeWallet.id (CafeWallet.with_balance x w) l) u v
  = Some (CafeWallet.with_balance x w).
Proof.
  unfold wallet_of. intros H.
  eapply find_update_row_hit; [exact H | reflexivity |].
  apply find_some in H. exact (proj2 H).
Qed.

(** The booking inserted under the next id is the one found under it. *)
Lemma booking_by_id_inserted (l : list Booking.t) (b : Booking.t) :
  Booking.id b = next_id Booking.id l ->
  booking_by_id (insert_row b l) (Booking.id b) = Some b.
Proof.
  unfold booking_by_id. intros E.
  rewrite find_insert_row, E, find_next_id, <- E, Z.eqb_refl. reflexivity.
Qed.



Lemma balance_of_credit_wallets (u v a now : Z) (l : list CafeWallet.t) :
  balance_of (credit_wallets u v a now l) u v = balance_of l u v + a.
Proof.
  unfold balance_of, credit_wallets.
  destruct (wallet_of l u v) as [w|] eqn:E.
  - rewrite (wallet_of_saved _ _ _ _ _ E). reflexivity.
  - unfold wallet_of in *. rewrite find_insert_row, E. cbn.
    rewrite !Z.eqb_refl. reflexivity.
Qed.

Lemma transaction_by_id_saved (l : list BowarTransaction.t) (i : Z)
  (x x' : BowarTransaction.t) :
  transaction_by_id l i = Some x ->
  BowarTransaction.id x' = BowarTransaction.id x ->
  transaction_by_id (update_row BowarTransaction.id x' l) i = Some x'.
Proof.
  unfold transaction_by_id. intros H E.
  rewrite find_by_id_update_row, H.
  apply find_by_id_sound in H. rewrite E, H, Z.eqb_refl. reflexivity.
Qed.

(** A top-up request and the rejection of one leave every wallet alone. *)
Lemma topup_keeps_wallets host f now user req d :
  cafe_wallets
    (store (run (BowarTransactionController.topup host now user req) f d))
  = cafe_wallets d.
Proof. apply run_post. exec; reflexivity. Qed.

Lemma topup_reject_keeps_wallets f user id note d :
  cafe_wallets
    (store (run (BowarTransactionController.reject user id note) f d))
  = cafe_wallets d.
Proof. apply run_post. exec; reflexivity. Qed.

(** A transaction that is no longer pending cannot be approved. *)
Lemma processed_topup_stays (f : Faults) (now : Z) (user : User.t) (id : Z)
  (d : Db) (x : BowarTransaction.t) :
  transaction_by_id (bowar_transactions d) id = Some x ->
  BowarTransaction.status x <> TsPending ->
  let o := run (BowarTransactionController.approve now user id) f d in
  store o = d /\ Response.status (response o) <> 200.
Proof.
  intros Hx Hs. cbv zeta.
  destruct (topup_approve_spec f now user id d)
    as [r evs Hr|evs|x' w d' evs Ha|x' w r d' evs Ha];
    cbn [store response].
  - split; [reflexivity|]. destruct Hr as [->|[->| ->]]; discriminate.
  - split; [reflexivity | discriminate].
  - destruct Ha as (_ & Hx' & _ & _ & Hp & _). congruence.
  - destruct Ha as (_ & Hx' & _ & _ & Hp & _). congruence.
Qed.

Lemma processed_topup_refused (now : Z) (user : User.t) (id : Z) (d : Db)
  (x : BowarTransaction.t) :
  transaction_by_id (bowar_transactions d) id = Some x ->
  BowarTransaction.status x <> TsPending ->
  User.role user = "operator" ->
  User.warnet_id user = BowarTransaction.warnet_id x ->
  Response.status
    (response (run (BowarTransactionController.approve now user id)
                 no_faults d)) = 400.
Proof.
  intros Hx Hs Hr Hv.
  apply (reflect_iff_false (TxStatus_eqb_spec _ _)) in Hs.
  apply (reflect_iff_true (optZ_eqb_spec _ _)) in Hv.
  apply String.eqb_eq in Hr.
  apply run_post. exec. reflexivity.
Qed.



(** ** The life cycle of a booking *)

Lemma lifecycle_trans s1 s2 s3 :
  lifecycle s1 s2 -> lifecycle s2 s3 -> lifecycle s1 s3.
Proof.
  induction 1 as [|s1 s2 s2' H12 _ IH]; [auto|].
  intros H. eapply lifecycle_next; eauto.
Qed.

(** What the life cycle never undoes. *)
Lemma lifecycle_absorbing s s' :
  lifecycle s s' ->
  (snd s = PsPaid -> snd s' = PsPaid)
  /\ (snd s = PsRejected -> snd s' = PsRejected)
  /\ (fst s = BsCancelled -> fst s' = BsCancelled)
  /\ (fst s = BsCompleted -> fst s' = BsCompleted).
Proof.
  induction 1 as [|s1 s2 s3 H12 _ IH]; [tauto|].
  destruct H12; cbn [fst snd] in *; repeat split; intros; try tauto;
    try discriminate; try congruence.
Qed.

Lemma Forall_update_row {A} (P : A -> Prop) (id : A -> Z) (r : A)
  (l : list A) :
  Forall P l -> P r -> Forall P (update_row id r l).
Proof.
  unfold update_row. intros Hl Hr. apply Forall_map.
  eapply Forall_impl; [|exact Hl]. intros x Hx. cbv beta.
  destruct (id x =? id r); assumption.
Qed.

Lemma booking_by_id_consistent (l : list Booking.t) (i : Z) (b : Booking.t) :
  Forall consistent l -> booking_by_id l i = Some b -> consistent b.
Proof.
  intros Hl H. apply find_some in H.
  exact (proj1 (Forall_forall _ _) Hl b (proj1 H)).
Qed.

(** A booking whose payment is not settled and that is not cancelled is
    still pending on both counts. *)
Lemma unsettled_is_pending (b : Booking.t) :
  consistent b -> Booking.payment_status b <> PsPaid ->
  Booking.status b <> BsCancelled ->
  state_of b = (BsPending, PsPending).
Proof.
  unfold consistent, state_of.
  destruct (Booking.payment_status b); intros H Hp Hs.
  - destruct H; [congruence | contradiction].
  - congruence.
  - contradiction.
Qed.

(** The effect of a save on the booking found under [i]. *)
Lemma booking_by_id_after_save (l : list Booking.t) (i j : Z)
  (b0 b1 b : Booking.t) :
  booking_by_id l j = Some b0 -> Booking.id b1 = Booking.id b0 ->
  booking_by_id l i = Some b ->
  booking_by_id (update_row Booking.id b1 l) i
  = Some (if i =? j then b1 else b)
  /\ (i = j -> b = b0).
Proof.
  unfold booking_by_id. intros H0 E H.
  rewrite find_by_id_update_row, H, E.
  rewrite (find_by_id_sound Booking.id _ _ _ H0).
  split; [reflexivity | intros ->; congruence].
Qed.

Section OneRequest.

Variables (host : Process) (f : Faults) (d : Db).

Hypothesis Hd : Forall consistent (bookings d).

Lemma advances_refl : advances d d.
Proof.
  split; [exact Hd|]. intros i b H. exists b. split; [exact H | constructor].
Qed.

Lemma advances_same_bookings d' : bookings d' = bookings d -> advances d d'.
Proof. intros E. unfold advances. rewrite E. apply advances_refl. Qed.

Lemma advances_insert d' b :
  bookings d' = insert_row b (bookings d) -> consistent b -> advances d d'.
Proof.
  intros E Hb. unfold advances. rewrite E. split.
  - unfold insert_row. apply Forall_app. split; [exact Hd | repeat constructor].
    exact Hb.
  - intros i b0 H. exists b0. split; [|constructor].
    unfold booking_by_id in *. rewrite find_insert_row, H. reflexivity.
Qed.

Lemma advances_save d' j b0 b1 :
  booking_by_id (bookings d) j = Some b0 ->
  Booking.id b1 = Booking.id b0 ->
  bookings d' = update_row Booking.id b1 (bookings d) ->
  consistent b1 ->
  lifecycle (state_of b0) (state_of b1) ->
  advances d d'.
Proof.
  intros H0 E Ed Hc Hl. unfold advances. rewrite Ed. split.
  - apply Forall_update_row; assumption.
  - intros i b H.
    destruct (booking_by_id_after_save _ i j b0 b1 b H0 E H) as [-> Hij].
    eexists. split; [reflexivity|].
    destruct (Z.eqb_spec i j) as [Eij|_]; [|constructor].
    rewrite (Hij Eij). exact Hl.
Qed.

Lemma create_advances now user req :
  advances d (store (run (BookingController.create now user req) f d)).
Proof.
  destruct (create_spec f now user req d) as [S _]. cbv zeta in S.
  destruct S as [r evs _ _ _|evs _|e k evs _
                  |warnet b r d' evs _ _ _ Hp _];
    cbn [store]; try apply advances_refl.
  destruct (String.eqb _ _).
  - destruct Hp as [_ _ _ _ Hb Hs Hps _].
    eapply advances_insert; [exact Hb|].
    unfold consistent. rewrite Hps, Hs. discriminate.
  - destruct Hp as [_ _ _ _ _ Hb Hs Hps].
    eapply advances_insert; [exact Hb|].
    unfold consistent. rewrite Hps, Hs. left. reflexivity.
Qed.

Lemma cancel_advances now user id :
  advances d (store (run (BookingController.cancel now user id) f d)).
Proof.
  destruct (cancel_spec f now user id d) as [S _]. cbv zeta in S.
  destruct S as [evs _|b evs _ _|b r evs _ _ _ _ _ _|e k evs _
                |b refunded d' evs Hb _ Hc1 Hc2 _ Hcan _];
    cbn [store]; try apply advances_refl.
  destruct Hcan as [_ _ Hbk _ _].
  refine (advances_save _ _ _ _ Hb _ Hbk _ _); [reflexivity | |].
  - pose proof (booking_by_id_consistent _ _ _ Hd Hb) as Hcons.
    unfold consistent in *. cbn.
    destruct (Booking.payment_status b); auto. discriminate.
  - unfold state_of. cbn.
    eapply lifecycle_next; [|constructor]. constructor; assumption.
Qed.

Lemma operator_approve_advances now operator id :
  advances d
    (store (run (OperatorBookingsController.approve now operator id) f d)).
Proof.
  destruct (approve_spec f now operator id d) as [S _]. cbv zeta in S.
  destruct S as [evs _|evs _|b evs _ _|b r evs _ _ _ _ _ _|e k evs _
                |b r d' evs _ Hb _ Hp Hs Happ _];
    cbn [store]; try apply advances_refl.
  destruct Happ as [_ _ _ _ Hbk _].
  refine (advances_save _ _ _ _ Hb _ Hbk _ _); [reflexivity | |].
  - unfold consistent. cbn. discriminate.
  - pose proof (unsettled_is_pending b
                  (booking_by_id_consistent _ _ _ Hd Hb) Hp Hs) as E.
    rewrite E. unfold state_of. cbn.
    eapply lifecycle_next; [|constructor]. constructor.
Qed.

Lemma operator_reject_advances operator id :
  advances d (store (run (OperatorBookingsController.reject operator id) f d)).
Proof.
  destruct (reject_spec f operator id d)
    as [_|_|b _ _|b r _ _ _ _ _ _|e k _|b r d' _ Hb _ Hp Hs Hrej _];
    cbn [store]; try apply advances_refl.
  destruct Hrej as [_ _ _ _ _ Hbk].
  refine (advances_save _ _ _ _ Hb _ Hbk _ _); [reflexivity | |].
  - unfold consistent. cbn. reflexivity.
  - pose proof (unsettled_is_pending b
                  (booking_by_id_consistent _ _ _ Hd Hb) Hp Hs) as E.
    rewrite E. unfold state_of. cbn.
    eapply lifecycle_next; [|constructor]. constructor.
Qed.

(** The wallet endpoints never write a booking. *)
Lemma wallet_endpoints_keep_bookings (r : Request) :
  match r with
  | PostTopup _ _ _ | PostPayment _ _ | PostRefund _ _ _
  | PatchApprove _ _ _ | PatchReject _ _ _ =>
      bookings (store (serve host f r d)) = bookings d
  | _ => True
  end.
Proof.
  destruct r; try exact I; unfold serve; cbn [handler];
    apply run_post; exec; reflexivity.
Qed.

Lemma request_advances (r : Request) : advances d (store (serve host f r d)).
Proof.
  pose proof (wallet_endpoints_keep_bookings r) as K.
  destruct r; try (apply advances_same_bookings; exact K);
    unfold serve; cbn [handler].
  - apply create_advances.
  - apply cancel_advances.
  - apply operator_approve_advances.
  - apply operator_reject_advances.
Qed.

End OneRequest.

(** C5. Under any sequence of requests (booking creation, cancellation,
    operator approval and rejection, and the wallet endpoints, which write
    no booking), whatever fails on the way, every booking only moves along
    its life cycle: its payment goes from pending to paid or from pending to
    rejected and never leaves paid or rejected, its status goes from pending
    to active with the payment, or from a status that is neither cancelled
    nor completed to cancelled, and nothing leaves cancelled or completed.
    The sequence starts from a store whose bookings are in states the
    operations produce (an empty table, for one). *)
Theorem booking_lifecycle_respected :
  forall (host : Process) (rs : list (Faults * Request)) (d : Db),
    Forall consistent (bookings d) ->
    Forall consistent (bookings (serve_all host rs d))
    /\ forall i b,
         booking_by_id (bookings d) i = Some b ->
         exists b',
           booking_by_id (bookings (serve_all host rs d)) i = Some b'
           /\ lifecycle (state_of b) (state_of b')
           /\ (Booking.payment_status b = PsPaid ->
               Booking.payment_status b' = PsPaid)
           /\ (Booking.payment_status b = PsRejected ->
               Booking.payment_status b' = PsRejected)
           /\ (Booking.status b = BsCancelled ->
               Booking.status b' = BsCancelled)
           /\ (Booking.status b = BsCompleted ->
               Booking.status b' = BsCompleted).
Proof.
  intros host rs.
  assert (G : forall d,
             Forall consistent (bookings d) ->
             Forall consistent (bookings (serve_all host rs d))
             /\ forall i b,
                  booking_by_id (bookings d) i = Some b ->
                  exists b',
                    booking_by_id (bookings (serve_all host rs d)) i = Some b'
                    /\ lifecycle (state_of b) (state_of b')).
  { induction rs as [|[f r] rs IH]; intros d Hd; cbn [serve_all].
    - split; [exact Hd|]. intros i b H. exists b. split; [exact H|constructor].
    - destruct (request_advances host f d Hd r) as [H1 H2].
      destruct (IH _ H1) as [I1 I2]. split; [exact I1|].
      intros i b H. destruct (H2 i b H) as (b1 & Hb1 & L1).
      destruct (I2 i b1 Hb1) as (b2 & Hb2 & L2).
      exists b2. split; [exact Hb2 | eapply lifecycle_trans; eassumption]. }
  intros d Hd. destruct (G d Hd) as [G1 G2]. split; [exact G1|].
  intros i b H. destruct (G2 i b H) as (b' & Hb' & L).
  exists b'. split; [exact Hb' | split; [exact L|]].
  exact (lifecycle_absorbing _ _ L).
Qed.

Lemma booking_lifecycle_respected_witness :
  Forall consistent (bookings demo_waiting)
  /\ exists b',
       booking_by_id
         (bookings
            (serve_all demo_host
               [(no_faults, PostOperatorBookingsReject demo_operator 1);
                (no_faults, PostOperatorBookingsApprove 9000 demo_operator 1);
                (no_faults, PostBookingsCancel 9500 demo_customer 1)]
               demo_waiting)) 1 = Some b'
       /\ state_of b' = (BsCancelled, PsRejected).
Proof.
  assert (H : Forall consistent (bookings demo_waiting))
    by (repeat constructor).
  split; [exact H|].
  destruct (proj2 (booking_lifecycle_respected demo_host
                     [(no_faults, PostOperatorBookingsReject demo_operator 1);
                      (no_faults,
                       PostOperatorBookingsApprove 9000 demo_operator 1);
                      (no_faults, PostBookingsCancel 9500 demo_customer 1)]
                     demo_waiting H)
              1 _ eq_refl) as (b' & Hb' & _).
  exists b'. split; [exact Hb'|].
  vm_compute in Hb'. injection Hb' as <-. reflexivity.
Defined.

(** ** Wallet writes and the transaction log *)


(** And when the save of the transaction fails after the save of the
    wallet, the credit stays while the log still shows the top-up as
    pending. *)
Example topup_approval_interrupted :
  let crash : Faults :=
    fun n => if Nat.eqb n 5 then Some (mkError "boom" "trace" "E") else None in
  let o := serve demo_host crash (PatchApprove 3000 demo_operator 1)
             demo_topup in
  Response.status (response o) = 500
  /\ balance_of (cafe_wallets (store o)) 1 7 = 75000
  /\ bowar_transactions (store o) = bowar_transactions demo_topup
  /\ events o = [EvWrite Direct TCafeWallets].
Proof. repeat split; reflexivity. Qed.

Ltac autocommit_leaf :=
  cbn [Response.status ok created badRequest unauthorized forbidden notFound
       internalServerError];
  split;
  [ repeat (apply Forall_app; split); repeat constructor;
    eexists; reflexivity
  | intros [E|E]; try discriminate E;
    repeat (apply in_or_app; first [ right; left; reflexivity | left ]) ].

Lemma payment_autocommits f user req d :
  let o := run (BowarTransactionController.payment user req) f d in
  Forall autocommitted (events o)
  /\ (Response.status (response o) = 200
      \/ Response.status (response o) = 201 ->
      In (EvWrite Direct TBowarTransactions) (events o)).
Proof. apply run_post. exec; autocommit_leaf. Qed.

Lemma refund_autocommits f now user req d :
  let o := run (BowarTransactionController.refund now user req) f d in
  Forall autocommitted (events o)
  /\ (Response.status (response o) = 200
      \/ Response.status (response o) = 201 ->
      In (EvWrite Direct TBowarTransactions) (events o)).
Proof. apply run_post. exec; autocommit_leaf. Qed.

Lemma topup_approve_autocommits f now user id d :
  let o := run (BowarTransactionController.approve now user id) f d in
  Forall autocommitted (events o)
  /\ (Response.status (response o) = 200
      \/ Response.status (response o) = 201 ->
      In (EvWrite Direct TBowarTransactions) (events o)).
Proof. apply run_post. exec; autocommit_leaf. Qed.


(** ** Server errors *)


Lemma wallet_endpoint_errors host f (r : Request) d :
  let o := serve host f r d in
  Response.status (response o) = 500 ->
  match r with
  | PostTopup _ _ _ =>
      exists k e,
        f k = Some e
        /\ response o
           = internalServerError
               (if String.eqb (e_message e) ""
                then "Terjadi kesalahan saat membuat permintaan top up"
                else e_message e)
               (if BowarTransactionController.development host
                then Some (e_message e) else None) None
  | PostPayment _ _ =>
      response o
      = internalServerError "Terjadi kesalahan saat memproses pembayaran"
          None None
  | PostRefund _ _ _ =>
      response o
      = internalServerError "Terjadi kesalahan saat memproses refund"
          None None
  | PatchApprove _ _ _ =>
      response o
      = internalServerError "Terjadi kesalahan saat menyetujui top up"
          None None
  | PatchReject _ _ _ =>
      response o
      = internalServerError "Terjadi kesalahan saat menolak top up"
          None None
  | _ => True
  end.
Proof.
  cbv zeta. destruct r; try (intros _; exact I); unfold serve; cbn [handler];
    apply run_post; exec;
    cbn [Response.status ok created badRequest unauthorized forbidden
         notFound internalServerError];
    intros E; try discriminate E;
    try first [ reflexivity
              | eexists _, _; split; [eassumption | reflexivity] ].
Qed.



(** ** The refund endpoint *)

Lemma wallet_of_credit_wallets (u v a now : Z) (l : list CafeWallet.t) :
  wallet_of (credit_wallets u v a now l) u v <> None.
Proof.
  unfold credit_wallets. destruct (wallet_of l u v) as [w|] eqn:E.
  - rewrite (wallet_of_saved _ _ _ _ _ E). discriminate.
  - unfold wallet_of in *. rewrite find_insert_row, E. cbn.
    rewrite !Z.eqb_refl. discriminate.
Qed.

(** C9. For every authenticated user, every amount above zero and every
    booking the request names (whoever owns it, paid or not, cancelled or
    not), [POST /bowar-transactions/refund] adds the amount to the caller's
    own wallet at the venue of that booking, creating the wallet if it is
    missing, and appends a completed refund record of that amount; the
    booking is only read. *)
Theorem refund_credits_caller_unchecked :
  forall (host : Process) (now : Z) (user : User.t) (bookingId amount : Z)
         (description : option string) (d : Db) (b : Booking.t),
    0 < amount -> bookingId <> 0 ->
    booking_by_id (bookings d) bookingId = Some b ->
    let o :=
      serve host no_faults
        (PostRefund now user
           (BowarTransactionController.mkAmountRequest (Some bookingId)
              (Some amount) description)) d in
    Response.status (response o) = 201
    /\ wallet_of (cafe_wallets (store o)) (User.id user) (Booking.warnet_id b)
       <> None
    /\ balance_of (cafe_wallets (store o)) (User.id user)
         (Booking.warnet_id b)
       = balance_of (cafe_wallets d) (User.id user) (Booking.warnet_id b)
         + amount
    /\ (exists x,
          bowar_transactions (store o) = insert_row x (bowar_transactions d)
          /\ BowarTransaction.type x = Refund
          /\ BowarTransaction.amount x = amount
          /\ BowarTransaction.status x = TsCompleted
          /\ BowarTransaction.user_id x = User.id user
          /\ BowarTransaction.booking_id x = Some bookingId)
    /\ bookings (store o) = bookings d.
Proof.
  intros host now user bookingId amount description d b Ha Hid Hb.
  assert (E1 : (amount =? 0) = false) by (apply Z.eqb_neq; lia).
  assert (E2 : (amount <=? 0) = false) by (apply Z.leb_gt; lia).
  assert (E3 : (bookingId =? 0) = false) by (apply Z.eqb_neq; exact Hid).
  cbv zeta. unfold serve. cbn [handler].
  unfold BowarTransactionController.refund.
  cbn [BowarTransactionController.amount BowarTransactionController.bookingId
       BowarTransactionController.description numZ truthyZ].
  apply run_post. exec.
  all: rewrite Hb in *.
  all: match goal with
       | |- _ /\ wallet_of ?l _ _ <> None /\ _ =>
           assert (W : l = credit_wallets (User.id user) (Booking.warnet_id b)
                             amount now (cafe_wallets d))
       end.
  1, 3: unfold credit_wallets;
        match goal with H : wallet_of _ _ _ = _ |- _ => rewrite H end.
  - reflexivity.
  - apply update_inserted_row; reflexivity.
  - rewrite W. split; [reflexivity|].
    split; [apply wallet_of_credit_wallets|].
    split; [apply balance_of_credit_wallets|].
    split; [|reflexivity].
    eexists. repeat split.
  - rewrite W. split; [reflexivity|].
    split; [apply wallet_of_credit_wallets|].
    split; [apply balance_of_credit_wallets|].
    split; [|reflexivity].
    eexists. repeat split.
Qed.

Lemma refund_credits_caller_unchecked_witness :
  0 < 999 /\ 1 <> 0
  /\ booking_by_id (bookings demo_booked) 1 = Some demo_booking
  /\ Booking.user_id demo_booking <> User.id demo_operator
  /\ Booking.status demo_booking <> BsCancelled
  /\ balance_of
       (cafe_wallets
          (store (serve demo_host no_faults
                    (PostRefund 4000 demo_operator
                       (BowarTransactionController.mkAmountRequest (Some 1)
                          (Some 999) None)) demo_booked)))
       (User.id demo_operator) 7
     = 0 + 999.
Proof.
  split; [lia | split; [discriminate | split; [reflexivity | ]]].
  split; [discriminate | split; [discriminate | ]].
  apply (refund_credits_caller_unchecked demo_host 4000 demo_operator 1 999
           None demo_booked demo_booking);
    [lia | discriminate | reflexivity].
Defined.

(** ** PC availability at creation *)

(** The only answer of [create] about the PC comes from a record under
    maintenance. *)
Lemma maintenance_answer f now user req d :
  Response.message (response (run (BookingController.create now user req) f d))
  = "PC is under maintenance" ->
  under_maintenance d (numZ (BookingController.warnetId req))
    (numZ (BookingController.pcNumber req)).
Proof.
  apply run_post.
  repeat first
    [ post_step_with
        ltac:(eapply post_weaken;
              [ apply create_in_transaction_spec;
                [ reflexivity | reflexivity
                | cbn [trace]; solve [repeat constructor] ]
              | cbv beta; intros ? ? [[] ?] ])
    | match goal with
      | H : _ = Val _ \/ _ |- _ => destruct H as [-> | (? & ? & -> & ?)]
      end ].
  all: cbn [Response.message ok created badRequest unauthorized forbidden
            notFound internalServerError response];
       unfold BookingController.insufficient_balance_message;
       intros E; try discriminate E.
  all: match goal with
  | H : match pc_of ?l ?w ?n with _ => _ end = true |- _ =>
      destruct (pc_of l w n) as [pc|] eqn:P; [|discriminate H];
      exists pc; split; [exact P|];
      exact (reflect_true (PcStatus_eqb_spec _ _) H)
  end.
Qed.

(** A second request for the slot of a booking just paid from the wallet,
    by the same user with the wallet still funded, goes through. *)
Lemma second_create_succeeds host now1 now2 user req d b1 :
  BookingController.paymentMethod req = Some "dompet_bowar" ->
  let o1 := serve host no_faults (PostBookings now1 user req) d in
  response o1 = created "Booking created successfully" (BookingData b1) ->
  Booking.total_price b1
  <= balance_of (cafe_wallets (store o1)) (User.id user)
       (numZ (BookingController.warnetId req)) ->
  Response.status
    (response (serve host no_faults (PostBookings now2 user req) (store o1)))
  = 201.
Proof.
  intros Hm. cbv zeta. unfold serve. cbn [handler].
  assert (M : String.eqb (strS (BookingController.paymentMethod req))
                "dompet_bowar" = true)
    by (rewrite Hm; reflexivity).
  apply run_post.
  repeat first
    [ post_step_with
        ltac:(eapply post_weaken;
              [ apply create_in_transaction_spec;
                [ reflexivity | reflexivity
                | cbn [trace]; solve [repeat constructor] ]
              | cbv beta; intros ? ? [[] ?] ])
    | match goal with
      | H : _ = Val _ \/ _ |- _ => destruct H as [-> | (? & ? & -> & ?)]
      end ].
  all: cbn [response store committed] in *; intros E; try discriminate E.
  all: try match goal with
         | H : no_faults _ = Some _ |- _ => discriminate H
         end.
  all: match goal with
       | H : strS _ = "dompet_bowar" |- _ => rewrite H in *
       | H : strS _ <> "dompet_bowar" |- _ =>
           apply String.eqb_neq in H; rewrite H in M; discriminate M
       end.
  all: try match goal with
         | H : String.eqb "dompet_bowar" "bank_transfer" = true |- _ =>
             vm_compute in H; discriminate H
         end.
  all: injection E as ->; intros Hbal.
  all: match goal with
       | B : Booked _ _ _ _ _ _ _ _ _, P : WalletPayment _ _ _ _ _ _ _ |- _ =>
           destruct B as [_ _ _ _ _ _ Bprice _];
           destruct P as [_ Hw (w0 & W0 & _ & W1) _ _ _ _ Hpc]
       end.
  all: match goal with
       | _ : cafe_wallets ?d1 = update_row _ ?w _ |- _ =>
           assert (W1' : wallet_of (cafe_wallets d1) (User.id user)
                           (numZ (BookingController.warnetId req)) = Some w)
             by (rewrite W1; apply wallet_of_saved; exact W0);
           assert (Mnt : match pc_of (pcs d1)
                                 (numZ (BookingController.warnetId req))
                                 (numZ (BookingController.pcNumber req)) with
                         | Some pc => PcStatus_eqb (Pc.status pc) Maintenance
                         | None => false
                         end = false)
             by (rewrite Hpc;
                 match goal with
                 | |- context [upsert_pc ?a ?b ?c ?e ?l] =>
                     destruct (pc_of_upsert_pc a b c e l) as (p & -> & -> & _)
                 end; reflexivity)
       end.
  all: unfold balance_of in Hbal; rewrite W1' in Hbal.
  all: apply run_post.
  all: repeat first
    [ progress rewrite Hw
    | post_step_with
        ltac:(eapply post_weaken;
              [ apply create_in_transaction_spec;
                [ reflexivity | reflexivity
                | cbn [trace]; solve [repeat constructor] ]
              | cbv beta; intros ? ? [[] ?] ])
    | match goal with
      | H : _ = Val _ \/ _ |- _ => destruct H as [-> | (? & ? & -> & ?)]
      end ].
  all: try match goal with
         | H : no_faults _ = Some _ |- _ => discriminate H
         end.
  all: try reflexivity.
  all: try match goal with
         | H : "dompet_bowar" <> "dompet_bowar" |- _ => contradiction H; reflexivity
         end.
  all: cbn [committed] in *.
  all: match goal with
       | H : match wallet_of _ _ _ with _ => _ end |- _ =>
           rewrite W1' in H; destruct H as [H _]; lia
       end.
Qed.

(** A response of status 201 from [create] is its [created] response. *)
Lemma created_response f now user req d :
  let o := run (BookingController.create now user req) f d in
  Response.status (response o) = 201 ->
  exists warnet b,
    response o = created "Booking created successfully" (BookingData b)
    /\ warnet_by_id (warnets d) (numZ (BookingController.warnetId req))
       = Some warnet
    /\ Booked (User.id user) (numZ (BookingController.warnetId req))
         (numZ (BookingController.pcNumber req))
         (strS (BookingController.bookingDate req))
         (strS (BookingController.bookingTime req))
         (BookingController.totalPrice user warnet
            (numZ (BookingController.warnetId req))
            (numZ (BookingController.duration req))) now d b
    /\ (if String.eqb (strS (BookingController.paymentMethod req))
             "dompet_bowar"
        then WalletPayment (User.id user)
               (numZ (BookingController.warnetId req))
               (numZ (BookingController.pcNumber req))
               (BookingController.totalPrice user warnet
                  (numZ (BookingController.warnetId req))
                  (numZ (BookingController.duration req))) b d (store o)
        else PendingBooking b d (store o)).
Proof.
  cbv zeta. destruct (create_spec f now user req d) as [S _]. cbv zeta in S.
  destruct S as [r evs Hs _ _|evs _|e k evs _
                |warnet b r d' evs Hw _ Hb Hp Hr];
    cbn [response store]; intros H; try discriminate H.
  - rewrite Hs in H. discriminate H.
  - destruct Hr as [->|(e & k & _ & ->)]; [|discriminate H].
    exists warnet, b.
    split; [reflexivity | split; [exact Hw | split; [exact Hb | exact Hp]]].
Qed.

(** C10. At creation the only obstacle a PC can be is a record under
    maintenance: the answer "PC is under maintenance" is given for such a
    record only, and for such a record nothing is created.  A PC that is
    occupied is no obstacle: after a booking paid from the wallet, a second
    request for the same venue, PC, date and time, by a wallet that still
    holds the price, succeeds while the first booking is still active, and
    the PC record then points at the second booking. *)
Theorem occupied_pc_can_be_booked_again :
  forall (host : Process) (f : Faults) (now : Z) (user : User.t)
         (req : BookingController.CreateRequest) (d : Db),
    let warnetId := numZ (BookingController.warnetId req) in
    let pcNumber := numZ (BookingController.pcNumber req) in
    let o := serve host f (PostBookings now user req) d in
    (Response.message (response o) = "PC is under maintenance" ->
     under_maintenance d warnetId pcNumber)
    /\ (under_maintenance d warnetId pcNumber ->
        store o = d /\ Response.status (response o) <> 201)
    /\ forall (now2 : Z) (b1 : Booking.t),
         BookingController.paymentMethod req = Some "dompet_bowar" ->
         let o1 := serve host no_faults (PostBookings now user req) d in
         let o2 :=
           serve host no_faults (PostBookings now2 user req) (store o1) in
         response o1
         = created "Booking created successfully" (BookingData b1) ->
         Booking.total_price b1
         <= balance_of (cafe_wallets (store o1)) (User.id user) warnetId ->
         exists b2 p,
           response o2
           = created "Booking created successfully" (BookingData b2)
           /\ Booking.id b2 <> Booking.id b1
           /\ Booking.warnet_id b2 = Booking.warnet_id b1
           /\ Booking.pc_number b2 = Booking.pc_number b1
           /\ Booking.booking_date b2 = Booking.booking_date b1
           /\ Booking.booking_time b2 = Booking.booking_time b1
           /\ Booking.status b2 = BsActive
           /\ booking_by_id (bookings (store o2)) (Booking.id b1) = Some b1
           /\ Booking.status b1 = BsActive
           /\ pc_of (pcs (store o2)) warnetId pcNumber = Some p
           /\ Pc.status p = Occupied
           /\ Pc.current_booking_id p = Some (Booking.id b2).
Proof.
  intros host f now user req d warnetId pcNumber o.
  subst warnetId pcNumber o. unfold serve. cbn [handler].
  split; [apply maintenance_answer | split].
  - intros (pc & Hpc & Hst).
    destruct (create_spec f now user req d) as [S _]. cbv zeta in S.
    destruct S as [r evs Hs _ _|evs _|e k evs _
                  |warnet b r d' evs _ Hm _ _ _];
      cbn [response store].
    + split; [reflexivity | rewrite Hs; discriminate].
    + split; [reflexivity | discriminate].
    + split; [reflexivity | discriminate].
    + rewrite Hpc in Hm. contradiction.
  - intros now2 b1 Hm. cbv zeta. intros H1 Hbal.
    pose proof (second_create_succeeds host now now2 user req d b1 Hm H1 Hbal)
      as H2.
    unfold serve in H1, H2, Hbal. cbn [handler] in H1, H2, Hbal.
    assert (M : String.eqb (strS (BookingController.paymentMethod req))
                  "dompet_bowar" = true)
      by (rewrite Hm; reflexivity).
    destruct (created_response no_faults now user req d)
      as (w1 & c1 & R1 & _ & B1 & P1); [rewrite H1; reflexivity|].
    rewrite H1 in R1. injection R1 as <-. rewrite M in P1.
    destruct (created_response no_faults now2 user req _ H2)
      as (w2 & b2 & R2 & _ & B2 & P2).
    rewrite M in P2.
    set (d1 := store (run (BookingController.create now user req)
                        no_faults d)) in *.
    set (d2 := store (run (BookingController.create now2 user req)
                        no_faults d1)) in *.
    destruct B1 as [I1 _ Bw1 Bp1 Bd1 Bt1 _ _].
    destruct B2 as [I2 _ Bw2 Bp2 Bd2 Bt2 _ _].
    destruct P1 as [_ _ _ _ K1 S1 _ _].
    destruct P2 as [_ _ _ _ K2 S2 _ Hpc2].
    destruct (pc_of_upsert_pc (numZ (BookingController.warnetId req))
                (numZ (BookingController.pcNumber req)) Occupied
                (Some (Booking.id b2)) (pcs d1)) as (p & Hp1 & Hp2 & Hp3).
    exists b2, p. rewrite R2, Hpc2.
    assert (Hlt : Booking.id b1 < Booking.id b2).
    { rewrite I2, K1. apply next_id_above. unfold insert_row.
      apply in_or_app. right. left. reflexivity. }
    repeat split; try congruence.
    + lia.
    + rewrite K2. unfold booking_by_id. rewrite find_insert_row.
      fold (booking_by_id (bookings d1) (Booking.id b1)).
      rewrite K1, (booking_by_id_inserted _ _ I1). reflexivity.
Qed.

Lemma occupied_pc_can_be_booked_again_witness :
  let req :=
    BookingController.mkCreateRequest (Some 7) (Some 3) (Some "2026-01-01")
      (Some "10:00") (Some 1) (Some "dompet_bowar") None None None in
  let b1 :=
    Booking.mk 1 1 7 3 "2026-01-01" "10:00" 1 BsActive PsPaid false 10000
      10000 false None None None 121000 None None in
  let o1 := serve demo_host no_faults (PostBookings 1000 demo_customer req)
              demo_store in
  let o2 := serve demo_host no_faults (PostBookings 1001 demo_customer req)
              (store o1) in
  response o1 = created "Booking created successfully" (BookingData b1)
  /\ Booking.total_price b1 <= balance_of (cafe_wallets (store o1)) 1 7
  /\ exists b2 p,
       response o2 = created "Booking created successfully" (BookingData b2)
       /\ Booking.id b2 <> Booking.id b1
       /\ Booking.warnet_id b2 = Booking.warnet_id b1
       /\ Booking.pc_number b2 = Booking.pc_number b1
       /\ Booking.booking_date b2 = Booking.booking_date b1
       /\ Booking.booking_time b2 = Booking.booking_time b1
       /\ Booking.status b2 = BsActive
       /\ booking_by_id (bookings (store o2)) (Booking.id b1) = Some b1
       /\ Booking.status b1 = BsActive
       /\ pc_of (pcs (store o2)) 7 3 = Some p
       /\ Pc.status p = Occupied
       /\ Pc.current_booking_id p = Some (Booking.id b2).
Proof.
  cbv zeta.
  split; [reflexivity | split; [vm_compute; discriminate | ]].
  apply (proj2 (proj2 (occupied_pc_can_be_booked_again demo_host no_faults
                         1000 demo_customer
                         (BookingController.mkCreateRequest (Some 7) (Some 3)
                            (Some "2026-01-01") (Some "10:00") (Some 1)
                            (Some "dompet_bowar") None None None)
                         demo_store))
           1001
           (Booking.mk 1 1 7 3 "2026-01-01" "10:00" 1 BsActive PsPaid false
              10000 10000 false None None None 121000 None None)
           eq_refl eq_refl).
  vm_compute. discriminate.
Defined.
